(** * Todo API bootstrap module ([main.py]): a shallow embedding

    The module wires a FastAPI application: logging, a lifespan hook around
    the database collaborator, one CORS middleware, two liveness endpoints
    and two delegated routers.  Module-level code, the lifespan generator
    and the two handlers are embedded as programs of a state-and-exception
    monad over an explicit process state. *)

From Stdlib Require Import String Ascii List NArith ZArith Bool Lia.
Import ListNotations.

Local Open Scope N_scope.
Local Open Scope list_scope.

(* ===================================================================== *)
(** * Text: decimal formatting as done by ["%0wd" % n] *)
(* ===================================================================== *)

Module Text.

Definition chars := list ascii.

Definition digit_char (d : N) : ascii := ascii_of_N (48 + d).

Definition is_digit (c : ascii) : bool :=
  (48 <=? N_of_ascii c) && (N_of_ascii c <=? 57).

Definition digit_val (c : ascii) : N := N_of_ascii c - 48.

Definition is_sign (c : ascii) : bool :=
  Ascii.eqb c "+" || Ascii.eqb c "-".

(** Decimal digits of a positive number, most significant first; the
    empty list for zero.  [fuel] bounds the number of digits. *)
Fixpoint dec_digits (fuel : nat) (n : N) : chars :=
  match fuel with
  | O => []
  | S f => if n =? 0 then []
           else dec_digits f (n / 10) ++ [digit_char (n mod 10)]
  end.

(** [str(n)] for a non-negative integer: a number has no more decimal
    digits than binary ones. *)
Definition str_N (n : N) : chars :=
  if n =? 0 then ["0"%char] else dec_digits (N.to_nat (N.size n)) n.

(** ["%0wd" % n]: the decimal digits, left-padded with zeros to at least
    [w] characters (longer numbers are not truncated). *)
Definition pad0 (w : nat) (n : N) : chars :=
  let s := str_N n in repeat "0"%char (w - length s) ++ s.

(** The [w] low decimal digits of [n], most significant first. *)
Fixpoint fixed (w : nat) (n : N) : chars :=
  match w with
  | O => []
  | S w' => fixed w' (n / 10) ++ [digit_char (n mod 10)]
  end.

(** Reads exactly [k] decimal digits, accumulating their value. *)
Fixpoint take_digits (k : nat) (acc : N) (l : chars) : option (N * chars) :=
  match k with
  | O => Some (acc, l)
  | S k' =>
      match l with
      | c :: l' =>
          if is_digit c then take_digits k' (acc * 10 + digit_val c) l'
          else None
      | [] => None
      end
  end.

Definition expect (c : ascii) (l : chars) : option chars :=
  match l with
  | c' :: l' => if Ascii.eqb c c' then Some l' else None
  | [] => None
  end.

End Text.

(* ===================================================================== *)
(** * [datetime]: the fields, [isoformat()] and an ISO-8601 reader *)
(* ===================================================================== *)

Module Datetime.
Import Text.

(** A [datetime] value.  [utcoffset] is [None] for a naive value (no
    [tzinfo]) and [Some m] for an aware one, [m] minutes east of UTC. *)
Record datetime : Type := mk_datetime {
  year : N;
  month : N;
  day : N;
  hour : N;
  minute : N;
  second : N;
  microsecond : N;
  utcoffset : option Z
}.

Definition is_leap (y : N) : bool :=
  ((y mod 4 =? 0) && negb (y mod 100 =? 0)) || (y mod 400 =? 0).

Definition days_in_month (y m : N) : N :=
  if m =? 2 then (if is_leap y then 29 else 28)
  else if (m =? 4) || (m =? 6) || (m =? 9) || (m =? 11) then 30
  else 31.

(** The ranges the [datetime] constructor enforces. *)
Definition valid_fields (y mo d h mi s us : N) : bool :=
  (1 <=? y) && (y <=? 9999) && (1 <=? mo) && (mo <=? 12) &&
  (1 <=? d) && (d <=? days_in_month y mo) &&
  (h <? 24) && (mi <? 60) && (s <? 60) && (us <? 1000000).

Definition valid_offset (o : option Z) : bool :=
  match o with
  | None => true
  | Some m => (-1440 <? m)%Z && (m <? 1440)%Z
  end.

Definition valid_datetime (t : datetime) : bool :=
  valid_fields (year t) (month t) (day t) (hour t) (minute t) (second t)
               (microsecond t)
  && valid_offset (utcoffset t).

(** [_format_time] with [timespec='auto']: microseconds are printed only
    when they are not zero. *)
Definition format_time (h mi s us : N) : chars :=
  pad0 2 h ++ [":"%char] ++ pad0 2 mi ++ [":"%char] ++ pad0 2 s
  ++ (if us =? 0 then [] else ["."%char] ++ pad0 6 us).

(** [_format_offset]: empty for a naive value, [+HH:MM] or [-HH:MM]
    otherwise. *)
Definition format_offset (o : option Z) : chars :=
  match o with
  | None => []
  | Some m =>
      let a := Z.to_N (Z.abs m) in
      [if (m <? 0)%Z then "-"%char else "+"%char]
      ++ pad0 2 (a / 60) ++ [":"%char] ++ pad0 2 (a mod 60)
  end.

(** [datetime.isoformat()] with the default separator ['T']. *)
Definition isoformat_chars (t : datetime) : chars :=
  pad0 4 (year t) ++ ["-"%char] ++ pad0 2 (month t) ++ ["-"%char]
  ++ pad0 2 (day t) ++ ["T"%char]
  ++ format_time (hour t) (minute t) (second t) (microsecond t)
  ++ format_offset (utcoffset t).

Definition isoformat (t : datetime) : string :=
  string_of_list_ascii (isoformat_chars t).

(** The text of a value whose fields are in range, followed by [tail]:
    every field has its fixed number of digits. *)
Definition iso_shape (y mo d h mi s us : N) (tail : chars) : chars :=
  fixed 4 y ++ "-"%char :: fixed 2 mo ++ "-"%char :: fixed 2 d
  ++ "T"%char :: fixed 2 h ++ ":"%char :: fixed 2 mi ++ ":"%char
  :: fixed 2 s
  ++ (if us =? 0 then tail else "."%char :: fixed 6 us ++ tail).

(** ** Reading an ISO-8601 date-time

    The reader accepts the extended format
    [YYYY-MM-DDThh:mm:ss[.ffffff][Z|+hh:mm|-hh:mm]] with every field in
    range: a profile of ISO 8601, so whatever it accepts is syntactically
    valid ISO 8601. *)

Definition obind {A B} (o : option A) (f : A -> option B) : option B :=
  match o with
  | Some a => f a
  | None => None
  end.

Notation "'let?' x ':=' o 'in' k" := (obind o (fun x => k))
  (at level 10, x pattern, o at level 100, k at level 200).

(** The time-zone designator: nothing, [Z], or a signed offset. *)
Definition parse_designator (l : chars) : option (option Z) :=
  match l with
  | [] => Some None
  | c :: rest =>
      if Ascii.eqb c "Z" then
        match rest with [] => Some (Some 0%Z) | _ => None end
      else if is_sign c then
        let? (hh, l1) := take_digits 2 0 rest in
        let? l2 := expect ":" l1 in
        let? (mm, l3) := take_digits 2 0 l2 in
        match l3 with
        | [] =>
            if (hh <? 24) && (mm <? 60) then
              let m := Z.of_N (hh * 60 + mm) in
              Some (Some (if Ascii.eqb c "-" then (- m)%Z else m))
            else None
        | _ => None
        end
      else None
  end.

Definition parse_fraction (l : chars) : option (N * chars) :=
  match l with
  | c :: rest =>
      if Ascii.eqb c "." then take_digits 6 0 rest else Some (0, l)
  | [] => Some (0, l)
  end.

Definition parse_iso8601_chars (l : chars) : option datetime :=
  let? (y, l) := take_digits 4 0 l in
  let? l := expect "-" l in
  let? (mo, l) := take_digits 2 0 l in
  let? l := expect "-" l in
  let? (d, l) := take_digits 2 0 l in
  let? l := expect "T" l in
  let? (h, l) := take_digits 2 0 l in
  let? l := expect ":" l in
  let? (mi, l) := take_digits 2 0 l in
  let? l := expect ":" l in
  let? (s, l) := take_digits 2 0 l in
  let? (us, l) := parse_fraction l in
  let? off := parse_designator l in
  if valid_fields y mo d h mi s us
  then Some (mk_datetime y mo d h mi s us off)
  else None.

Definition parse_iso8601 (s : string) : option datetime :=
  parse_iso8601_chars (list_ascii_of_string s).

Definition is_iso8601 (s : string) : bool :=
  match parse_iso8601 s with
  | Some _ => true
  | None => false
  end.

(** ** Time-zone designators, read from the end of the text *)

Definition ends_with_Z (l : chars) : bool :=
  match rev l with
  | c :: _ => Ascii.eqb c "Z" || Ascii.eqb c "z"
  | [] => false
  end.

(** A numeric UTC offset in one of the ISO-8601 forms [+hh:mm], [+hhmm]
    or [+hh] (with either sign) at the end of the text. *)
Definition ends_with_offset (l : chars) : bool :=
  match rev l with
  | m2 :: m1 :: c :: h2 :: h1 :: sg :: _ =>
      (is_digit m2 && is_digit m1 && Ascii.eqb c ":" && is_digit h2
       && is_digit h1 && is_sign sg)
      || (is_digit m2 && is_digit m1 && is_digit c && is_digit h2
          && is_sign h1)
      || (is_digit m2 && is_digit m1 && is_sign c)
  | m2 :: m1 :: c :: h2 :: h1 :: [] =>
      (is_digit m2 && is_digit m1 && is_digit c && is_digit h2
       && is_sign h1)
      || (is_digit m2 && is_digit m1 && is_sign c)
  | m2 :: m1 :: c :: _ => is_digit m2 && is_digit m1 && is_sign c
  | _ => false
  end.

Definition has_tz_designator (s : string) : bool :=
  let l := list_ascii_of_string s in
  ends_with_Z l || ends_with_offset l.

End Datetime.

(* ===================================================================== *)
(** * Python values, exceptions and the process state *)
(* ===================================================================== *)

Module Py.
Import Datetime.
Local Open Scope string_scope.

(** A raised exception object: its class name, whether the class derives
    from [Exception] (as opposed to [BaseException] only, like
    [KeyboardInterrupt], [SystemExit] or [asyncio.CancelledError]), and
    [str(e)]. *)
Record exn : Type := mk_exn {
  exn_class : string;
  derives_Exception : bool;
  exn_str : string
}.

Inductive result (A : Type) : Type :=
| Ok (a : A)
| Raise (e : exn).
Arguments Ok {A} a.
Arguments Raise {A} e.

(** The values the handlers put in their dictionaries. *)
#[warnings="-register-all"]
Inductive value : Type :=
| VStr (s : string)
| VList (l : list value).

(** A [dict] with string keys, in insertion order. *)
Definition dict := list (string * value).

Fixpoint dict_get (k : string) (d : dict) : option value :=
  match d with
  | [] => None
  | (k', v) :: d' => if String.eqb k k' then Some v else dict_get k d'
  end.

(** Modelled from the spec: [app.config] is not among the sources.  The
    spec describes a configuration record with the application name, the
    version, the debug flag, the allowed CORS origins (an ordered list of
    origin strings) and the production flag, read-only from the bootstrap
    module. *)
Record Settings : Type := mk_settings {
  APP_NAME : string;
  APP_VERSION : string;
  DEBUG : bool;
  CORS_ORIGINS : list string;
  PRODUCTION : bool
}.

(** Modelled from the spec: [settings.get_cors_origins_list()] returns the
    configured list of allowed origins. *)
Definition get_cors_origins_list (s : Settings) : list string :=
  CORS_ORIGINS s.

(** Modelled from the spec: [settings.is_production()] returns the
    production flag. *)
Definition is_production (s : Settings) : bool := PRODUCTION s.

(** ** Logging *)

Inductive level : Type := INFO | WARNING | ERROR.

(** An f-string, kept as its literal parts and interpolated values. *)
Inductive piece : Type :=
| Lit (s : string)
| FStr (s : string)
| FList (l : list string)
| FBool (b : bool)
| FExc (e : exn).

Record log_record : Type := mk_log {
  log_level : level;
  log_message : list piece
}.

(** ** The wall clock *)

Record clock : Type := mk_clock {
  c_year : N;
  c_month : N;
  c_day : N;
  c_hour : N;
  c_minute : N;
  c_second : N;
  c_microsecond : N
}.

Definition valid_clock (c : clock) : bool :=
  valid_fields (c_year c) (c_month c) (c_day c) (c_hour c) (c_minute c)
               (c_second c) (c_microsecond c).

End Py.

(* ===================================================================== *)
(** * HTTP messages *)
(* ===================================================================== *)

Module Http.
Import Py.
Local Open Scope string_scope.

Definition headers := list (string * string).

Fixpoint header_get (name : string) (h : headers) : option string :=
  match h with
  | [] => None
  | (k, v) :: h' => if String.eqb name k then Some v else header_get name h'
  end.

(** An HTTP request as the application receives it; header names are in
    lower case. *)
Record Request : Type := mk_request {
  req_method : string;
  req_path : string;
  req_headers : headers
}.

Inductive body : Type :=
| JSONBody (d : dict)
| TextBody (s : string).

Record Response : Type := mk_response {
  status_code : N;
  resp_headers : headers;
  resp_body : body
}.

End Http.

(* ===================================================================== *)
(** * The process state and its programs *)
(* ===================================================================== *)

Module Process.
Import Datetime Py Http.

(** The clock reading as a [datetime] without [tzinfo]. *)
Definition naive_utc (c : clock) : datetime :=
  mk_datetime (c_year c) (c_month c) (c_day c) (c_hour c) (c_minute c)
              (c_second c) (c_microsecond c) None.

(** ** The database collaborator

    [app.database] is not among the sources: its two operations are taken
    as parameters, acting on a database state of their own and free to
    raise. *)
Class Database : Type := {
  DbState : Type;
  create_db_and_tables : DbState -> result unit * DbState;
  close_db : DbState -> result unit * DbState
}.

Inductive call : Type := CallCreateDb | CallCloseDb.

Definition call_eqb (a b : call) : bool :=
  match a, b with
  | CallCreateDb, CallCreateDb => true
  | CallCloseDb, CallCloseDb => true
  | _, _ => false
  end.

Section State.
Context {DB : Database}.

(** The process state the module reads and writes: the [settings]
    singleton, the UTC wall clock, the records emitted through [logger],
    the database state, the collaborator operations invoked so far and the
    responses sent so far. *)
Record World : Type := mk_world {
  settings : Settings;
  wall_clock : clock;
  log : list log_record;
  db : DbState;
  calls : list call;
  sent : list Response
}.

(** Programs: they read and write the process state and return or raise.
    The state reached when an exception is raised is kept. *)
Definition M (A : Type) : Type := World -> result A * World.

Definition ret {A} (a : A) : M A := fun w => (Ok a, w).

Definition bind {A B} (m : M A) (f : A -> M B) : M B :=
  fun w =>
    match m w with
    | (Ok a, w') => f a w'
    | (Raise e, w') => (Raise e, w')
    end.

Definition raise {A} (e : exn) : M A := fun w => (Raise e, w).

(** [try: body  except Exception as e: handler e]: only exceptions whose
    class derives from [Exception] are handled, the others propagate. *)
Definition try_except_Exception {A} (body : M A) (handler : exn -> M A)
  : M A :=
  fun w =>
    match body w with
    | (Ok a, w') => (Ok a, w')
    | (Raise e, w') =>
        if derives_Exception e then handler e w' else (Raise e, w')
    end.

Definition read_settings : M Settings := fun w => (Ok (settings w), w).

(** [datetime.utcnow()]: the UTC wall clock as a naive [datetime]. *)
Definition utcnow : M datetime :=
  fun w => (Ok (naive_utc (wall_clock w)), w).

Definition emit (l : level) (msg : list piece) : M unit :=
  fun w =>
    (Ok tt, mk_world (settings w) (wall_clock w)
              (log w ++ [mk_log l msg]) (db w) (calls w) (sent w)).

Definition logger_info := emit INFO.
Definition logger_warning := emit WARNING.
Definition logger_error := emit ERROR.

(** Awaiting a collaborator operation: the invocation is recorded, then the
    operation runs on the database state. *)
Definition await_db (c : call) (op : DbState -> result unit * DbState)
  : M unit :=
  fun w =>
    let (r, d) := op (db w) in
    (r, mk_world (settings w) (wall_clock w) (log w) d (calls w ++ [c])
          (sent w)).

(** A program of the database layer run inside the process. *)
Definition lift_db {A} (op : DbState -> result A * DbState) : M A :=
  fun w =>
    let (r, d) := op (db w) in
    (r, mk_world (settings w) (wall_clock w) (log w) d (calls w) (sent w)).

(** A response leaves the process. *)
Definition send (r : Response) : M unit :=
  fun w =>
    (Ok tt, mk_world (settings w) (wall_clock w) (log w) (db w) (calls w)
              (sent w ++ [r])).

End State.

Declare Scope prog_scope.
Delimit Scope prog_scope with prog.
Notation "x <- m ;; k" := (bind m (fun x => k))
  (at level 61, m at next level, right associativity) : prog_scope.
Notation "m ;; k" := (bind m (fun _ => k))
  (at level 61, right associativity) : prog_scope.

End Process.

(* ===================================================================== *)
(** * The web framework, as far as [main.py] drives it *)
(* ===================================================================== *)

Module Web.
Import Py Http Process.
Local Open Scope string_scope.
Local Open Scope prog_scope.

(** The keyword arguments [main.py] passes to [CORSMiddleware]. *)
Record CORSOptions : Type := mk_cors {
  allow_origins : list string;
  allow_credentials : bool;
  allow_methods : list string;
  allow_headers : list string
}.

Section App.
Context {DB : Database}.

Record Route : Type := mk_route {
  route_path : string;
  route_methods : list string;
  route_tags : list string;
  endpoint : Request -> M Response
}.

(** A route of a delegated router: its handler belongs to the database
    layer and is out of scope here. *)
Record ExtRoute : Type := mk_ext_route {
  ext_path : string;
  ext_methods : list string;
  ext_handler : Request -> DbState -> result Response * DbState
}.

Record APIRouter : Type := mk_router {
  router_routes : list ExtRoute
}.

(** A module of [app.routes]: its [router] attribute, when it has one. *)
Record RouteModule : Type := mk_module {
  router : option APIRouter
}.

(** The application object. *)
Record FastAPI : Type := mk_app {
  title : string;
  description : string;
  version : string;
  lifespan_context : M unit * M unit;
  user_middleware : list CORSOptions;
  routes : list Route;
  on_startup : list (M unit)
}.

(** [FastAPI(title=..., description=..., version=..., lifespan=...)] *)
Definition FastAPI_new (t d v : string) (ls : M unit * M unit) : FastAPI :=
  mk_app t d v ls [] [] [].

(** [app.add_middleware(CORSMiddleware, **options)]: the newest middleware
    is the outermost one. *)
Definition add_middleware (app : FastAPI) (o : CORSOptions) : FastAPI :=
  mk_app (title app) (description app) (version app) (lifespan_context app)
         (o :: user_middleware app) (routes app) (on_startup app).

Definition add_route (app : FastAPI) (r : Route) : FastAPI :=
  mk_app (title app) (description app) (version app) (lifespan_context app)
         (user_middleware app) (routes app ++ [r]) (on_startup app).

(** A handler returning a [dict] answers 200 with the dictionary as JSON. *)
Definition json_endpoint (f : M dict) : Request -> M Response :=
  fun _ =>
    d <- f ;;
    ret (mk_response 200 [("content-type", "application/json")] (JSONBody d)).

(** [@app.get(path)] *)
Definition app_get (path : string) (f : M dict) (app : FastAPI) : FastAPI :=
  add_route app (mk_route path ["GET"] [] (json_endpoint f)).

(** [app.include_router(r, prefix=..., tags=...)]: every route of [r] is
    added under the prefix, carrying the tags. *)
Definition mount (prefix : string) (tags : list string) (r : ExtRoute)
  : Route :=
  mk_route (prefix ++ ext_path r) (ext_methods r) tags
           (fun req => lift_db (ext_handler r req)).

Definition include_router (app : FastAPI) (r : APIRouter)
    (prefix : string) (tags : list string) : FastAPI :=
  mk_app (title app) (description app) (version app) (lifespan_context app)
         (user_middleware app)
         (routes app ++ map (mount prefix tags) (router_routes r))
         (on_startup app).

(** [@app.on_event("startup")] *)
Definition on_event_startup (h : M unit) (app : FastAPI) : FastAPI :=
  mk_app (title app) (description app) (version app) (lifespan_context app)
         (user_middleware app) (routes app) (on_startup app ++ [h]).

(** [m.router]: [AttributeError] when the module defines no router. *)
Definition getattr_router (name : string) (m : RouteModule) : M APIRouter :=
  match router m with
  | Some r => ret r
  | None =>
      raise (mk_exn "AttributeError" true
               ("module 'app.routes." ++ name
                ++ "' has no attribute 'router'"))
  end.

(** ** Dispatch *)

Definition accepts (r : Route) (req : Request) : bool :=
  String.eqb (route_path r) (req_path req)
  && existsb (String.eqb (req_method req)) (route_methods r).

Fixpoint find_route (rs : list Route) (req : Request) : option Route :=
  match rs with
  | [] => None
  | r :: rs' => if accepts r req then Some r else find_route rs' req
  end.

Definition path_known (rs : list Route) (req : Request) : bool :=
  existsb (fun r => String.eqb (route_path r) (req_path req)) rs.

(** The router: the first route accepting the request handles it; a known
    path with another method is answered 405, an unknown path 404. *)
Definition router_call (rs : list Route) (req : Request) : M Response :=
  match find_route rs req with
  | Some r => endpoint r req
  | None =>
      if path_known rs req
      then ret (mk_response 405 [] (TextBody "Method Not Allowed"))
      else ret (mk_response 404 [] (JSONBody [("detail", VStr "Not Found")]))
  end.

(** The framework's outermost layer, around the installed middleware: an
    exception deriving from [Exception] that escapes the application
    becomes a 500 response. *)
Definition ServerErrorMiddleware (inner : Request -> M Response)
  : Request -> M Response :=
  fun req =>
    try_except_Exception (inner req)
      (fun _ => ret (mk_response 500 [] (TextBody "Internal Server Error"))).

(** ** The CORS middleware *)

Definition origin_allowed (o : CORSOptions) (origin : string) : bool :=
  existsb (String.eqb origin) (allow_origins o).

(** An entry ["*"] permits everything. *)
Definition permits (l : list string) (x : string) : bool :=
  existsb (String.eqb "*") l || existsb (String.eqb x) l.

Definition cors_headers (o : CORSOptions) (origin : string) : headers :=
  ([("access-control-allow-origin", origin)]
   ++ (if allow_credentials o
       then [("access-control-allow-credentials", "true")] else [])
   ++ [("access-control-allow-methods",
        String.concat ", " (allow_methods o));
       ("access-control-allow-headers",
        String.concat ", " (allow_headers o))])%list.

Definition add_headers (h : headers) (r : Response) : Response :=
  mk_response (status_code r) (resp_headers r ++ h)%list (resp_body r).

(** Modelled from the spec: the [CORSMiddleware] class comes from the web
    framework and is not among the sources.  The spec says that every
    inbound request is intercepted; if its Origin header matches an
    allowed entry, the [Access-Control-Allow-*] response headers are added
    and a preflight (OPTIONS) request is short-circuited with a success
    response; from a disallowed origin no matching
    [Access-Control-Allow-Origin] header is added. *)
Definition CORSMiddleware (o : CORSOptions) (inner : Request -> M Response)
  : Request -> M Response :=
  fun req =>
    match header_get "origin" (req_headers req) with
    | Some origin =>
        if origin_allowed o origin then
          if String.eqb (req_method req) "OPTIONS"
          then ret (mk_response 200 (cors_headers o origin) (TextBody "OK"))
          else r <- inner req ;; ret (add_headers (cors_headers o origin) r)
        else inner req
    | None => inner req
    end.

(** The application as a request handler: the router wrapped in the
    installed middleware, the newest outermost, inside the server-error
    layer. *)
Definition app_call (app : FastAPI) : Request -> M Response :=
  ServerErrorMiddleware
    (fold_right CORSMiddleware (router_call (routes app))
       (user_middleware app)).

End App.
End Web.

(* ===================================================================== *)
(** * [main.py] *)
(* ===================================================================== *)

Module Main.
Import Datetime Py Http Process Web.
Local Open Scope string_scope.
Local Open Scope prog_scope.

(** [from app.routes import auth, tasks]: the package is not among the
    sources; importing it yields the two modules or raises. *)
Class Routes {DB : Database} : Type := {
  import_app_routes : result (RouteModule * RouteModule)
}.

Section Bootstrap.
Context {DB : Database} {RT : Routes}.

(** The part of [lifespan] before [yield]. *)
Definition lifespan_startup : M unit :=
  try_except_Exception
    (logger_info [Lit "Starting up: Creating database tables..."] ;;
     await_db CallCreateDb create_db_and_tables ;;
     logger_info [Lit "Database tables created successfully"])
    (fun e =>
       logger_error [Lit "Error during database initialization: "; FExc e] ;;
       logger_warning [Lit "Continuing without database initialization..."]).

(** The part of [lifespan] after [yield]. *)
Definition lifespan_shutdown : M unit :=
  try_except_Exception
    (logger_info [Lit "Shutting down: Closing database connections..."] ;;
     await_db CallCloseDb close_db ;;
     logger_info [Lit "Database connections closed"])
    (fun e => logger_error [Lit "Error during database shutdown: "; FExc e]).

Definition lifespan : M unit * M unit := (lifespan_startup, lifespan_shutdown).

(** [async with cm: body] for a generator-based context manager whose
    [yield] stands outside any [try]: an exception of the body leaves
    through the [yield] and the code after it does not run. *)
Definition async_with {A} (cm : M unit * M unit) (body : M A) : M A :=
  fst cm ;;
  a <- body ;;
  snd cm ;;
  ret a.

(** [GET /] *)
Definition root : M dict :=
  logger_info [Lit "Root endpoint accessed"] ;;
  s1 <- read_settings ;;
  s2 <- read_settings ;;
  now <- utcnow ;;
  s3 <- read_settings ;;
  ret [("status", VStr "healthy");
       ("app_name", VStr (APP_NAME s1));
       ("version", VStr (APP_VERSION s2));
       ("timestamp", VStr (isoformat now));
       ("cors_origins", VList (map VStr (get_cors_origins_list s3)))].

(** [GET /health] *)
Definition health_check : M dict :=
  now <- utcnow ;;
  ret [("status", VStr "healthy");
       ("timestamp", VStr (isoformat now))].

Definition rule : string := String.concat "" (repeat "=" 50).

(** The handler registered with [@app.on_event("startup")]. *)
Definition startup_event : M unit :=
  logger_info [Lit rule] ;;
  s <- read_settings ;;
  logger_info [Lit "Application: "; FStr (APP_NAME s); Lit " v";
               FStr (APP_VERSION s)] ;;
  s <- read_settings ;;
  logger_info [Lit "Environment: ";
               FStr (if is_production s then "Production"
                     else "Development")] ;;
  s <- read_settings ;;
  logger_info [Lit "CORS Origins: "; FList (get_cors_origins_list s)] ;;
  s <- read_settings ;;
  logger_info [Lit "Debug Mode: "; FBool (DEBUG s)] ;;
  logger_info [Lit rule].

Definition import_from_app_routes : M (RouteModule * RouteModule) :=
  match import_app_routes with
  | Ok ms => ret ms
  | Raise e => raise e
  end.

(** The body of the [try] block that includes the two routers. *)
Definition register_routers (app : FastAPI) : M FastAPI :=
  ms <- import_from_app_routes ;;
  r_auth <- getattr_router "auth" (fst ms) ;;
  let app1 := include_router app r_auth "/api/auth" ["Authentication"] in
  r_tasks <- getattr_router "tasks" (snd ms) ;;
  let app2 := include_router app1 r_tasks "/api/tasks" ["Tasks"] in
  logger_info [Lit "API routes registered successfully"] ;;
  ret app2.

(** The [try] block with its handler, which logs and re-raises. *)
Definition include_routers (app : FastAPI) : M FastAPI :=
  try_except_Exception
    (register_routers app)
    (fun e =>
       logger_error [Lit "Error loading routes: "; FExc e] ;;
       raise e).

(** The module's top-level code, in source order; its value is the global
    [app].  Configuring the logging format, the Windows event-loop policy
    and [load_dotenv()] touch nothing of the modelled state. *)
Definition main_module : M FastAPI :=
  s1 <- read_settings ;;
  s2 <- read_settings ;;
  let app0 :=
    FastAPI_new (APP_NAME s1)
      "Full-stack todo application API with JWT authentication"
      (APP_VERSION s2) lifespan in
  s3 <- read_settings ;;
  let cors_origins := get_cors_origins_list s3 in
  logger_info [Lit "Configuring CORS with origins: "; FList cors_origins] ;;
  let app1 := add_middleware app0 (mk_cors cors_origins true ["*"] ["*"]) in
  let app2 := app_get "/" root app1 in
  let app3 := app_get "/health" health_check app2 in
  app4 <- include_routers app3 ;;
  ret (on_event_startup startup_event app4).

(** ** The serving process *)

(** What reaches the process while it serves: the clock moving on, the
    [settings] object being changed, an HTTP request. *)
Inductive input : Type :=
| Tick (c : clock)
| Reconfigure (s : Settings)
| Http (r : Request).

Definition set_clock (c : clock) : M unit :=
  fun w => (Ok tt, mk_world (settings w) c (log w) (db w) (calls w) (sent w)).

Definition set_settings (s : Settings) : M unit :=
  fun w => (Ok tt, mk_world s (wall_clock w) (log w) (db w) (calls w) (sent w)).

Fixpoint serve (app : FastAPI) (ins : list input) : M unit :=
  match ins with
  | [] => ret tt
  | Tick c :: rest => set_clock c ;; serve app rest
  | Reconfigure s :: rest => set_settings s ;; serve app rest
  | Http r :: rest =>
      resp <- app_call app r ;;
      send resp ;;
      serve app rest
  end.

(** The server process: import the module (a failure ends the process
    before anything is served), then serve inside the application's
    lifespan.  The handlers registered with [on_event] are left to the
    framework and are not run here. *)
Definition run_server (ins : list input) : M unit :=
  app <- main_module ;;
  async_with (lifespan_context app) (serve app ins).

End Bootstrap.

(** ** Observations used in the statements *)

(** The state with more log records, and nothing else changed. *)
Definition logged {DB : Database} (w : World) (rs : list log_record)
  : World :=
  mk_world (settings w) (wall_clock w) (log w ++ rs) (db w) (calls w)
           (sent w).

(** The state after a collaborator operation [c] left the database in
    state [d], with more log records. *)
Definition with_db {DB : Database} (w : World) (d : DbState) (c : call)
    (rs : list log_record) : World :=
  mk_world (settings w) (wall_clock w) (log w ++ rs) d (calls w ++ [c])
           (sent w).

(** A handler that neither invokes a collaborator operation of the
    lifespan nor sends anything itself. *)
Definition keeps_trace {DB : Database} (f : Request -> M Response) : Prop :=
  forall req w,
    calls (snd (f req w)) = calls w /\ sent (snd (f req w)) = sent w.

Definition count_call (c : call) (l : list call) : nat :=
  length (filter (call_eqb c) l).

Definition GET (path : string) (h : headers) : Request :=
  mk_request "GET" path h.

Definition body_dict (r : Response) : dict :=
  match resp_body r with
  | JSONBody d => d
  | TextBody _ => []
  end.

(** The HTTP requests among the inputs, in order. *)
Fixpoint requests (ins : list input) : list Request :=
  match ins with
  | [] => []
  | Http r :: rest => r :: requests rest
  | _ :: rest => requests rest
  end.

(** Inputs whose requests are all [GET /health]. *)
Definition health_traffic (ins : list input) : bool :=
  forallb (fun r => String.eqb (req_method r) "GET"
                    && String.eqb (req_path r) "/health") (requests ins).

Definition is_error_record (r : log_record) : bool :=
  match log_level r with
  | ERROR => true
  | _ => false
  end.

End Main.

(* ===================================================================== *)
(** * Sample collaborators and states *)
(* ===================================================================== *)

Module Sample.
Import Datetime Py Http Process Web Main.
Local Open Scope string_scope.

(** A database whose state counts the open connections. *)
Definition working_db : Database := {|
  DbState := nat;
  create_db_and_tables := fun n => (Ok tt, S n);
  close_db := fun _ => (Ok tt, O)
|}.

(** A database that cannot be initialised: [create_db_and_tables] raises
    [e]. *)
Definition db_init_fails (e : exn) : Database := {|
  DbState := nat;
  create_db_and_tables := fun n => (Raise e, n);
  close_db := fun _ => (Ok tt, O)
|}.

(** A database whose teardown raises [e]. *)
Definition db_close_fails (e : exn) : Database := {|
  DbState := nat;
  create_db_and_tables := fun n => (Ok tt, S n);
  close_db := fun n => (Raise e, n)
|}.

Definition connection_refused : exn :=
  mk_exn "OperationalError" true "connection refused".

Definition cancelled : exn := mk_exn "CancelledError" false "".

Definition keyboard_interrupt : exn := mk_exn "KeyboardInterrupt" false "".

Definition system_exit : exn := mk_exn "SystemExit" false "1".

Definition import_error : exn :=
  mk_exn "ImportError" true "cannot import name 'tasks' from 'app.routes'".

Definition text_handler {DB : Database} (s : string)
  : Request -> DbState -> result Response * DbState :=
  fun _ d => (Ok (mk_response 200 [] (TextBody s)), d).

Definition auth_router {DB : Database} : APIRouter :=
  mk_router [mk_ext_route "/login" ["POST"] (text_handler "token")].

Definition tasks_router {DB : Database} : APIRouter :=
  mk_router [mk_ext_route "/" ["GET"] (text_handler "[]");
             mk_ext_route "/" ["POST"] (text_handler "created")].

Definition both_routers {DB : Database} : Routes := {|
  import_app_routes :=
    Ok (mk_module (Some auth_router), mk_module (Some tasks_router))
|}.

(** The [tasks] module defines no [router]. *)
Definition tasks_without_router {DB : Database} : Routes := {|
  import_app_routes := Ok (mk_module (Some auth_router), mk_module None)
|}.

Definition import_raises {DB : Database} (e : exn) : Routes := {|
  import_app_routes := Raise e
|}.

Definition todo_settings : Settings :=
  mk_settings "Todo API" "1.0.0" false
              ["http://localhost:3000"; "https://todo.example.com"] false.

Definition other_settings : Settings :=
  mk_settings "Todo API" "1.0.0" false ["https://evil.example.com"] false.

Definition noon : clock := mk_clock 2024 1 15 12 0 0 0.

Definition later : clock := mk_clock 2024 2 29 23 59 59 1234.

Definition fresh {DB : Database} (d : DbState) : World :=
  mk_world todo_settings noon [] d [] [].

Definition loaded_app {DB : Database} {RT : Routes} (w : World) : FastAPI :=
  match fst (main_module w) with
  | Ok app => app
  | Raise _ => FastAPI_new "" "" "" lifespan
  end.

Definition health_request : Request := GET "/health" [].

Definition root_request : Request := GET "/" [].

Definition preflight (origin : string) : Request :=
  mk_request "OPTIONS" "/api/tasks/"
    [("origin", origin); ("access-control-request-method", "POST")].

(** A delegated handler that sets [Access-Control-Allow-Origin] itself,
    to the Origin of the request. *)
Definition echo_origin_handler {DB : Database}
  : Request -> DbState -> result Response * DbState :=
  fun req d =>
    (Ok (mk_response 200
           match header_get "origin" (req_headers req) with
           | Some o => [("access-control-allow-origin", o)]
           | None => []
           end
           (TextBody "ok")), d).

Definition echo_routers {DB : Database} : Routes := {|
  import_app_routes :=
    Ok (mk_module
          (Some (mk_router [mk_ext_route "/echo" ["GET"] echo_origin_handler])),
        mk_module (Some (mk_router [])))
|}.

End Sample.

(* ===================================================================== *)
(** * Further observations on runs and answers *)
(* ===================================================================== *)

Module Observe.
Import Datetime Py Http Process Web Main.
Local Open Scope string_scope.









(** A delegated handler interrupted while it runs. *)
Definition interrupted_handler {DB : Database}
  : Request -> DbState -> result Response * DbState :=
  fun _ d => (Raise (mk_exn "KeyboardInterrupt" false ""), d).

Definition interrupted_routers {DB : Database} : Routes := {|
  import_app_routes :=
    Ok (mk_module (Some (mk_router [])),
        mk_module
          (Some (mk_router [mk_ext_route "/" ["GET"] interrupted_handler])))
|}.

End Observe.

(* ===================================================================== *)
(** * [isoformat()] on sample values *)
(* ===================================================================== *)

Module TextExamples.
Import Text Datetime.
Local Open Scope string_scope.

Example isoformat_whole_second :
  isoformat (mk_datetime 2024 1 15 10 30 45 0 None) = "2024-01-15T10:30:45".
Proof. reflexivity. Qed.

Example isoformat_microseconds :
  isoformat (mk_datetime 2024 1 15 10 30 45 1234 None)
  = "2024-01-15T10:30:45.001234".
Proof. reflexivity. Qed.

Example isoformat_aware :
  isoformat (mk_datetime 2024 1 15 10 30 45 0 (Some (-330)%Z))
  = "2024-01-15T10:30:45-05:30".
Proof. reflexivity. Qed.

Example parse_back :
  parse_iso8601 "2024-01-15T10:30:45.001234"
  = Some (mk_datetime 2024 1 15 10 30 45 1234 None).
Proof. reflexivity. Qed.

Example designator_seen :
  has_tz_designator "2024-01-15T10:30:45-05:30" = true
  /\ has_tz_designator "2024-01-15T10:30:45Z" = true
  /\ has_tz_designator "2024-01-15T10:30:45.001234" = false.
Proof. repeat split; reflexivity. Qed.

End TextExamples.

(* ===================================================================== *)
(** * Facts about decimal text *)
(* ===================================================================== *)

Module TextFacts.
Import Text.

Lemma code_digit_char (d : N) : d < 10 -> N_of_ascii (digit_char d) = 48 + d.
Proof.
  intros H. unfold digit_char. apply N_ascii_embedding. lia.
Qed.

Lemma is_digit_digit_char (d : N) : d < 10 -> is_digit (digit_char d) = true.
Proof.
  intros H. unfold is_digit. rewrite (code_digit_char d H).
  apply andb_true_intro. split; apply N.leb_le; lia.
Qed.

Lemma digit_val_digit_char (d : N) : d < 10 -> digit_val (digit_char d) = d.
Proof.
  intros H. unfold digit_val. rewrite (code_digit_char d H). lia.
Qed.

(** A digit differs from every character that is not one. *)
Lemma eqb_digit_char_other (c : ascii) (d : N) :
  d < 10 -> is_digit c = false -> Ascii.eqb (digit_char d) c = false.
Proof.
  intros H Hc. apply Ascii.eqb_neq. intros E. subst c.
  rewrite (is_digit_digit_char d H) in Hc. discriminate.
Qed.

Lemma eqb_other_digit_char (c : ascii) (d : N) :
  d < 10 -> is_digit c = false -> Ascii.eqb c (digit_char d) = false.
Proof.
  intros H Hc. rewrite Ascii.eqb_sym. now apply eqb_digit_char_other.
Qed.

Lemma is_sign_digit_char (d : N) : d < 10 -> is_sign (digit_char d) = false.
Proof.
  intros H. unfold is_sign.
  rewrite !(eqb_digit_char_other _ d H) by reflexivity. reflexivity.
Qed.

Lemma mod10_lt (n : N) : n mod 10 < 10.
Proof. apply N.mod_lt. discriminate. Qed.

Lemma is_digit_mod10 (n : N) : is_digit (digit_char (n mod 10)) = true.
Proof. apply is_digit_digit_char, mod10_lt. Qed.

Lemma is_sign_mod10 (n : N) : is_sign (digit_char (n mod 10)) = false.
Proof. apply is_sign_digit_char, mod10_lt. Qed.

Lemma eqb_mod10_other (c : ascii) (n : N) :
  is_digit c = false -> Ascii.eqb (digit_char (n mod 10)) c = false.
Proof. apply eqb_digit_char_other, mod10_lt. Qed.


Lemma fixed_digits (w : nat) : forall n, forallb is_digit (fixed w n) = true.
Proof.
  induction w as [|w IH]; intros n; simpl.
  - reflexivity.
  - rewrite forallb_app, IH. simpl.
    now rewrite (is_digit_digit_char _ (mod10_lt n)).
Qed.

Lemma fixed_zero (w : nat) : fixed w 0 = repeat "0"%char w.
Proof.
  induction w as [|w IH]; simpl.
  - reflexivity.
  - change (0 / 10) with 0. rewrite IH.
    change (digit_char (0 mod 10)) with "0"%char.
    now rewrite <- repeat_cons.
Qed.

Lemma pow10_succ (w : nat) : 10 ^ N.of_nat (S w) = 10 * 10 ^ N.of_nat w.
Proof. rewrite Nat2N.inj_succ. apply N.pow_succ_r'. Qed.

Lemma pow2_succ (f : nat) : 2 ^ N.of_nat (S f) = 2 * 2 ^ N.of_nat f.
Proof. rewrite Nat2N.inj_succ. apply N.pow_succ_r'. Qed.

(** With enough fuel, the digits padded to [w] places are the [w] low
    digits. *)
Lemma dec_digits_fixed (fuel : nat) :
  forall n w,
    n < 2 ^ N.of_nat fuel -> n < 10 ^ N.of_nat w ->
    repeat "0"%char (w - length (dec_digits fuel n)) ++ dec_digits fuel n
    = fixed w n.
Proof.
  induction fuel as [|f IH]; intros n w Hf Hw.
  - simpl in *. rewrite app_nil_r, Nat.sub_0_r.
    assert (n = 0) by lia. subst n. symmetry. apply fixed_zero.
  - simpl. destruct (N.eqb_spec n 0) as [E|E].
    + subst n. simpl. rewrite app_nil_r, Nat.sub_0_r. symmetry.
      apply fixed_zero.
    + destruct w as [|w].
      * simpl in Hw. lia.
      * rewrite pow10_succ in Hw. rewrite pow2_succ in Hf.
        assert (H10 : n / 10 < 10 ^ N.of_nat w)
          by (apply N.Div0.div_lt_upper_bound; lia).
        assert (H2 : n / 10 < 2 ^ N.of_nat f).
        { apply N.Div0.div_lt_upper_bound.
          assert (0 < 2 ^ N.of_nat f) by (apply N.neq_0_lt_0, N.pow_nonzero; lia).
          lia. }
        simpl fixed. rewrite <- (IH (n / 10) w H2 H10).
        rewrite length_app. simpl length.
        replace (S w - (length (dec_digits f (n / 10)) + 1))%nat
          with (w - length (dec_digits f (n / 10)))%nat by lia.
        now rewrite app_assoc.
Qed.

(** ["%0wd" % n] prints exactly the [w] low digits when [n] has at most
    [w] digits. *)
Lemma pad0_fixed (w : nat) (n : N) :
  (0 < w)%nat -> n < 10 ^ N.of_nat w -> pad0 w n = fixed w n.
Proof.
  intros Hw Hn. unfold pad0, str_N.
  destruct (N.eqb_spec n 0) as [E|E].
  - subst n. rewrite fixed_zero. simpl length.
    destruct w as [|w]; [lia|].
    replace (S w - 1)%nat with w by lia.
    now rewrite <- repeat_cons.
  - apply dec_digits_fixed; [|exact Hn].
    rewrite N2Nat.id. apply N.size_gt.
Qed.

Lemma take_digits_app (j k : nat) :
  forall acc l,
    take_digits (j + k) acc l
    = match take_digits j acc l with
      | Some (v, l') => take_digits k v l'
      | None => None
      end.
Proof.
  induction j as [|j IH]; intros acc l; simpl.
  - reflexivity.
  - destruct l as [|c l]; [reflexivity|].
    destruct (is_digit c); [apply IH | reflexivity].
Qed.

(** Reading back the [w] digits of [n] gives [n]. *)
Lemma take_digits_fixed (w : nat) :
  forall n acc rest,
    n < 10 ^ N.of_nat w ->
    take_digits w acc (fixed w n ++ rest)
    = Some (acc * 10 ^ N.of_nat w + n, rest).
Proof.
  induction w as [|w IH]; intros n acc rest Hn.
  - simpl in *. assert (n = 0) by lia. subst n.
    do 2 f_equal. lia.
  - rewrite pow10_succ in Hn.
    assert (H10 : n / 10 < 10 ^ N.of_nat w)
      by (apply N.Div0.div_lt_upper_bound; lia).
    replace (S w) with (w + 1)%nat at 1 by lia.
    rewrite take_digits_app. simpl fixed. rewrite <- app_assoc.
    rewrite (IH (n / 10) acc _ H10). cbn [take_digits app].
    rewrite (is_digit_digit_char _ (mod10_lt n)).
    rewrite (digit_val_digit_char _ (mod10_lt n)).
    do 2 f_equal. rewrite pow10_succ.
    pose proof (N.div_mod n 10 ltac:(discriminate)). lia.
Qed.

End TextFacts.

(* ===================================================================== *)
(** * Facts about [isoformat()] *)
(* ===================================================================== *)

Module DatetimeFacts.
Import Text Datetime TextFacts.

Lemma days_in_month_le (y m : N) : days_in_month y m <= 31.
Proof.
  unfold days_in_month.
  destruct (m =? 2); [destruct (is_leap y); lia|].
  destruct ((m =? 4) || (m =? 6) || (m =? 9) || (m =? 11)); lia.
Qed.

Lemma valid_fields_bounds (y mo d h mi s us : N) :
  valid_fields y mo d h mi s us = true ->
  y < 10 ^ N.of_nat 4 /\ mo < 10 ^ N.of_nat 2 /\ d < 10 ^ N.of_nat 2 /\
  h < 10 ^ N.of_nat 2 /\ mi < 10 ^ N.of_nat 2 /\ s < 10 ^ N.of_nat 2 /\
  us < 10 ^ N.of_nat 6.
Proof.
  unfold valid_fields. intros H.
  repeat (apply andb_prop in H; destruct H as [H ?]).
  repeat match goal with
         | H : (_ <=? _) = true |- _ => apply N.leb_le in H
         | H : (_ <? _) = true |- _ => apply N.ltb_lt in H
         end.
  pose proof (days_in_month_le y mo).
  change (10 ^ N.of_nat 4) with 10000.
  change (10 ^ N.of_nat 2) with 100.
  change (10 ^ N.of_nat 6) with 1000000.
  repeat split; lia.
Qed.

Lemma isoformat_chars_shape (y mo d h mi s us : N) (o : option Z) :
  valid_fields y mo d h mi s us = true ->
  isoformat_chars (mk_datetime y mo d h mi s us o)
  = iso_shape y mo d h mi s us (format_offset o).
Proof.
  intros H. apply valid_fields_bounds in H.
  destruct H as (Hy & Hmo & Hd & Hh & Hmi & Hs & Hus).
  unfold isoformat_chars, format_time, iso_shape. cbn [year month day hour
    minute second microsecond utcoffset].
  rewrite !pad0_fixed by (assumption || lia).
  destruct (us =? 0); rewrite <- ?app_assoc; reflexivity.
Qed.

Lemma take_fixed (w : nat) (n : N) (rest : chars) :
  n < 10 ^ N.of_nat w ->
  take_digits w 0 (fixed w n ++ rest) = Some (n, rest).
Proof.
  intros H. rewrite (take_digits_fixed w n 0 rest H). reflexivity.
Qed.

(** Reading the text of a naive value gives the value back. *)
Lemma parse_isoformat_naive (y mo d h mi s us : N) :
  valid_fields y mo d h mi s us = true ->
  parse_iso8601 (isoformat (mk_datetime y mo d h mi s us None))
  = Some (mk_datetime y mo d h mi s us None).
Proof.
  intros H. unfold parse_iso8601, isoformat.
  rewrite list_ascii_of_string_of_list_ascii.
  rewrite (isoformat_chars_shape _ _ _ _ _ _ _ _ H).
  pose proof (valid_fields_bounds _ _ _ _ _ _ _ H)
    as (Hy & Hmo & Hd & Hh & Hmi & Hs & Hus).
  unfold parse_iso8601_chars, iso_shape.
  rewrite (take_fixed 4 y _ Hy). cbn [obind expect Ascii.eqb Bool.eqb].
  rewrite (take_fixed 2 mo _ Hmo). cbn [obind expect Ascii.eqb Bool.eqb].
  rewrite (take_fixed 2 d _ Hd). cbn [obind expect Ascii.eqb Bool.eqb].
  rewrite (take_fixed 2 h _ Hh). cbn [obind expect Ascii.eqb Bool.eqb].
  rewrite (take_fixed 2 mi _ Hmi). cbn [obind expect Ascii.eqb Bool.eqb].
  rewrite (take_fixed 2 s _ Hs). cbn [obind].
  destruct (N.eqb_spec us 0) as [E|E].
  - subst us. cbn [format_offset parse_fraction obind parse_designator].
    now rewrite H.
  - cbn [format_offset parse_fraction Ascii.eqb Bool.eqb].
    rewrite (take_fixed 6 us _ Hus). cbn [obind parse_designator].
    now rewrite H.
Qed.

(** The text of a naive value ends in two digits of seconds after a colon,
    or in six digits of microseconds: never in a designator. *)
Lemma no_designator_naive (y mo d h mi s us : N) :
  valid_fields y mo d h mi s us = true ->
  has_tz_designator (isoformat (mk_datetime y mo d h mi s us None)) = false.
Proof.
  intros H. unfold has_tz_designator, isoformat.
  rewrite list_ascii_of_string_of_list_ascii.
  rewrite (isoformat_chars_shape _ _ _ _ _ _ _ _ H).
  unfold iso_shape, ends_with_Z, ends_with_offset.
  destruct (us =? 0); cbn [format_offset fixed app rev];
    rewrite ?is_digit_mod10, ?is_sign_mod10,
            ?(fun n => eqb_mod10_other ":" n eq_refl),
            ?(fun n => eqb_mod10_other "Z" n eq_refl),
            ?(fun n => eqb_mod10_other "z" n eq_refl);
    reflexivity.
Qed.

End DatetimeFacts.

(* ===================================================================== *)
(** * Facts about the programs *)
(* ===================================================================== *)

Module ProgramFacts.
Import Datetime Py Http Process Web Main.
Local Open Scope string_scope.
Local Open Scope prog_scope.

Section Facts.
Context {DB : Database} {RT : Routes}.

Lemma world_eta (w : World) :
  mk_world (settings w) (wall_clock w) (log w) (db w) (calls w) (sent w) = w.
Proof. now destruct w. Qed.

Lemma health_check_run (w : World) :
  health_check w
  = (Ok [("status", VStr "healthy");
         ("timestamp", VStr (isoformat (naive_utc (wall_clock w))))], w).
Proof. reflexivity. Qed.

Lemma root_run (w : World) :
  root w
  = (Ok [("status", VStr "healthy");
         ("app_name", VStr (APP_NAME (settings w)));
         ("version", VStr (APP_VERSION (settings w)));
         ("timestamp", VStr (isoformat (naive_utc (wall_clock w))));
         ("cors_origins",
          VList (map VStr (get_cors_origins_list (settings w))))],
     logged w [mk_log INFO [Lit "Root endpoint accessed"]]).
Proof. reflexivity. Qed.

(** What a successful import of the module has built. *)
Lemma main_module_ok (w w' : World) (app : FastAPI) :
  main_module w = (Ok app, w') ->
  exists ma mt a t,
    import_app_routes = Ok (ma, mt) /\ router ma = Some a /\
    router mt = Some t /\
    title app = APP_NAME (settings w) /\
    version app = APP_VERSION (settings w) /\
    lifespan_context app = lifespan /\
    user_middleware app
    = [mk_cors (get_cors_origins_list (settings w)) true ["*"] ["*"]] /\
    routes app
    = ([mk_route "/" ["GET"] [] (json_endpoint root);
        mk_route "/health" ["GET"] [] (json_endpoint health_check)]
       ++ map (mount "/api/auth" ["Authentication"]) (router_routes a)
       ++ map (mount "/api/tasks" ["Tasks"]) (router_routes t))%list /\
    w' = logged w
           [mk_log INFO [Lit "Configuring CORS with origins: ";
                         FList (get_cors_origins_list (settings w))];
            mk_log INFO [Lit "API routes registered successfully"]].
Proof.
  unfold main_module, include_routers, register_routers,
    import_from_app_routes,
    getattr_router, try_except_Exception, bind, read_settings, logger_info,
    logger_error, emit, raise, ret. cbn.
  destruct import_app_routes as [[ma mt]|e]; cbn.
  - destruct (router ma) as [a|] eqn:Ea; cbn.
    + destruct (router mt) as [t|] eqn:Et; cbn.
      * intros H. inversion H; subst; clear H.
        exists ma, mt, a, t. cbn. unfold logged. cbn.
        rewrite <- !app_assoc. repeat split; auto.
      * discriminate.
    + discriminate.
  - destruct (derives_Exception e); discriminate.
Qed.

(** A GET request goes through the CORS middleware to the inner
    application; the middleware only appends headers to the answer. *)
Lemma cors_get_through (o : CORSOptions) (inner : Request -> M Response)
    (path : string) (h : headers) (w w' : World) (r : Response) :
  inner (GET path h) w = (Ok r, w') ->
  exists hs,
    CORSMiddleware o inner (GET path h) w
    = (Ok (mk_response (status_code r) (resp_headers r ++ hs)%list
             (resp_body r)), w').
Proof.
  intros H. unfold CORSMiddleware. cbn.
  destruct (header_get "origin" h) as [origin|].
  - destruct (origin_allowed o origin).
    + exists (cors_headers o origin). unfold bind. now rewrite H.
    + exists []. rewrite H, app_nil_r. now destruct r.
  - exists []. rewrite H, app_nil_r. now destruct r.
Qed.

Lemma server_error_ok (inner : Request -> M Response) (req : Request)
    (w w' : World) (r : Response) :
  inner req w = (Ok r, w') -> ServerErrorMiddleware inner req w = (Ok r, w').
Proof.
  intros H. unfold ServerErrorMiddleware, try_except_Exception.
  now rewrite H.
Qed.

Lemma stack_get_through (o : CORSOptions) (inner : Request -> M Response)
    (path : string) (h : headers) (w w' : World) (r : Response) :
  inner (GET path h) w = (Ok r, w') ->
  exists hs,
    ServerErrorMiddleware (CORSMiddleware o inner) (GET path h) w
    = (Ok (mk_response (status_code r) (resp_headers r ++ hs)%list
             (resp_body r)), w').
Proof.
  intros H. destruct (cors_get_through o inner path h w w' r H) as [hs Hc].
  exists hs. now apply server_error_ok.
Qed.

Lemma router_call_health (rest : list Route) (h : headers) (w : World) :
  router_call (mk_route "/" ["GET"] [] (json_endpoint root)
               :: mk_route "/health" ["GET"] [] (json_endpoint health_check)
               :: rest) (GET "/health" h) w
  = (Ok (mk_response 200 [("content-type", "application/json")]
           (JSONBody
              [("status", VStr "healthy");
               ("timestamp", VStr (isoformat (naive_utc (wall_clock w))))])),
     w).
Proof. reflexivity. Qed.

Lemma router_call_root (rest : list Route) (h : headers) (w : World) :
  router_call (mk_route "/" ["GET"] [] (json_endpoint root)
               :: mk_route "/health" ["GET"] [] (json_endpoint health_check)
               :: rest) (GET "/" h) w
  = (Ok (mk_response 200 [("content-type", "application/json")]
           (JSONBody
              [("status", VStr "healthy");
               ("app_name", VStr (APP_NAME (settings w)));
               ("version", VStr (APP_VERSION (settings w)));
               ("timestamp", VStr (isoformat (naive_utc (wall_clock w))));
               ("cors_origins",
                VList (map VStr (get_cors_origins_list (settings w))))])),
     logged w [mk_log INFO [Lit "Root endpoint accessed"]]).
Proof. reflexivity. Qed.

(** The loaded application answers through its single middleware. *)
Lemma app_call_loaded (w0 w0' : World) (app : FastAPI) :
  main_module w0 = (Ok app, w0') ->
  exists rest,
    app_call app
    = ServerErrorMiddleware
        (CORSMiddleware
           (mk_cors (get_cors_origins_list (settings w0)) true ["*"] ["*"])
           (router_call
              (mk_route "/" ["GET"] [] (json_endpoint root)
               :: mk_route "/health" ["GET"] [] (json_endpoint health_check)
               :: rest))).
Proof.
  intros H. apply main_module_ok in H.
  destruct H as (ma & mt & a & t & _ & _ & _ & _ & _ & _ & Hm & Hr & _).
  unfold app_call. rewrite Hm, Hr. cbn. eexists. reflexivity.
Qed.

(** ** The two halves of the lifespan *)

Lemma lifespan_startup_run (w : World) :
  lifespan_startup w
  = match create_db_and_tables (db w) with
    | (Ok _, d) =>
        (Ok tt,
         with_db w d CallCreateDb
           [mk_log INFO [Lit "Starting up: Creating database tables..."];
            mk_log INFO [Lit "Database tables created successfully"]])
    | (Raise e, d) =>
        if derives_Exception e then
          (Ok tt,
           with_db w d CallCreateDb
             [mk_log INFO [Lit "Starting up: Creating database tables..."];
              mk_log ERROR
                [Lit "Error during database initialization: "; FExc e];
              mk_log WARNING
                [Lit "Continuing without database initialization..."]])
        else
          (Raise e,
           with_db w d CallCreateDb
             [mk_log INFO [Lit "Starting up: Creating database tables..."]])
    end.
Proof.
  unfold lifespan_startup, try_except_Exception, bind, logger_info,
    logger_error, logger_warning, emit, await_db, with_db. cbn.
  destruct (create_db_and_tables (db w)) as [[[]|e] d]; cbn.
  - now rewrite <- app_assoc.
  - destruct (derives_Exception e); cbn; [|reflexivity].
    now rewrite <- !app_assoc.
Qed.

Lemma lifespan_shutdown_run (w : World) :
  lifespan_shutdown w
  = match close_db (db w) with
    | (Ok _, d) =>
        (Ok tt,
         with_db w d CallCloseDb
           [mk_log INFO
              [Lit "Shutting down: Closing database connections..."];
            mk_log INFO [Lit "Database connections closed"]])
    | (Raise e, d) =>
        if derives_Exception e then
          (Ok tt,
           with_db w d CallCloseDb
             [mk_log INFO
                [Lit "Shutting down: Closing database connections..."];
              mk_log ERROR [Lit "Error during database shutdown: "; FExc e]])
        else
          (Raise e,
           with_db w d CallCloseDb
             [mk_log INFO
                [Lit "Shutting down: Closing database connections..."]])
    end.
Proof.
  unfold lifespan_shutdown, try_except_Exception, bind, logger_info,
    logger_error, emit, await_db, with_db. cbn.
  destruct (close_db (db w)) as [[[]|e] d]; cbn.
  - now rewrite <- app_assoc.
  - destruct (derives_Exception e); cbn; [|reflexivity].
    now rewrite <- !app_assoc.
Qed.

(** ** Requests leave the record of calls and of sent responses alone *)

Lemma keeps_trace_root : keeps_trace (json_endpoint root).
Proof. intros req w. split; reflexivity. Qed.

Lemma keeps_trace_health : keeps_trace (json_endpoint health_check).
Proof. intros req w. split; reflexivity. Qed.

Lemma keeps_trace_mount (prefix : string) (tags : list string)
    (r : ExtRoute) :
  keeps_trace (endpoint (mount prefix tags r)).
Proof.
  intros req w. cbn. unfold lift_db.
  destruct (ext_handler r req (db w)). split; reflexivity.
Qed.

Lemma find_route_in (rs : list Route) (req : Request) (r : Route) :
  find_route rs req = Some r -> In r rs.
Proof.
  induction rs as [|r' rs IH]; cbn; [discriminate|].
  destruct (accepts r' req).
  - intros H. inversion H. now left.
  - intros H. right. now apply IH.
Qed.

Lemma keeps_trace_router (rs : list Route) :
  Forall (fun r => keeps_trace (endpoint r)) rs ->
  keeps_trace (router_call rs).
Proof.
  intros Hall req w. unfold router_call.
  destruct (find_route rs req) as [r|] eqn:Hf.
  - apply find_route_in in Hf.
    rewrite Forall_forall in Hall. exact (Hall r Hf req w).
  - destruct (path_known rs req); split; reflexivity.
Qed.

Lemma keeps_trace_server_error (inner : Request -> M Response) :
  keeps_trace inner -> keeps_trace (ServerErrorMiddleware inner).
Proof.
  intros Hin req w. unfold ServerErrorMiddleware, try_except_Exception.
  specialize (Hin req w).
  destruct (inner req w) as [[resp|e] w']; cbn in *; [exact Hin|].
  destruct (derives_Exception e); exact Hin.
Qed.

Lemma keeps_trace_cors (o : CORSOptions) (inner : Request -> M Response) :
  keeps_trace inner -> keeps_trace (CORSMiddleware o inner).
Proof.
  intros Hin req w. unfold CORSMiddleware.
  destruct (header_get "origin" (req_headers req)) as [origin|];
    [|apply Hin].
  destruct (origin_allowed o origin); [|apply Hin].
  destruct (String.eqb (req_method req) "OPTIONS"); [split; reflexivity|].
  unfold bind. specialize (Hin req w).
  destruct (inner req w) as [[resp|e] w']; exact Hin.
Qed.

Lemma keeps_trace_loaded (w0 w0' : World) (app : FastAPI) :
  main_module w0 = (Ok app, w0') -> keeps_trace (app_call app).
Proof.
  intros H. apply main_module_ok in H.
  destruct H as (ma & mt & a & t & _ & _ & _ & _ & _ & _ & Hm & Hr & _).
  unfold app_call. rewrite Hm, Hr. cbn [fold_right].
  apply keeps_trace_server_error, keeps_trace_cors, keeps_trace_router.
  repeat apply Forall_cons.
  - apply keeps_trace_root.
  - apply keeps_trace_health.
  - apply Forall_app. split; apply Forall_forall; intros r Hr';
      apply in_map_iff in Hr'; destruct Hr' as (x & <- & _);
      apply keeps_trace_mount.
Qed.

(** Serving adds nothing to the record of collaborator calls. *)
Lemma serve_calls (w0 w0' : World) (app : FastAPI) (ins : list input) :
  main_module w0 = (Ok app, w0') ->
  forall w, calls (snd (serve app ins w)) = calls w.
Proof.
  intros H. pose proof (keeps_trace_loaded _ _ _ H) as Hk.
  induction ins as [|i ins IH]; intros w; [reflexivity|].
  destruct i as [c|s|r]; cbn [serve]; unfold bind.
  - cbn. now rewrite IH.
  - cbn. now rewrite IH.
  - destruct (Hk r w) as [Hc _].
    destruct (app_call app r w) as [[resp|e] w1]; cbn in *; [|exact Hc].
    rewrite IH. cbn. exact Hc.
Qed.

(** Health checks are served one after the other, each with status 200,
    whatever the state. *)
Lemma serve_health (w0 w0' : World) (app : FastAPI) (ins : list input) :
  main_module w0 = (Ok app, w0') ->
  health_traffic ins = true ->
  forall w, exists w' resps,
    serve app ins w = (Ok tt, w')
    /\ sent w' = (sent w ++ resps)%list
    /\ map status_code resps = map (fun _ => 200%N) (requests ins)
    /\ db w' = db w /\ calls w' = calls w /\ log w' = log w.
Proof.
  intros H. destruct (app_call_loaded _ _ _ H) as [rest Hcall].
  induction ins as [|i ins IH]; intros Ht w.
  - exists w, []. cbn. rewrite app_nil_r. repeat split.
  - destruct i as [c|s|r]; cbn [serve]; unfold bind.
    + destruct (IH Ht (mk_world (settings w) c (log w) (db w) (calls w)
                         (sent w))) as (w' & resps & Hs & ? & ? & ? & ? & ?).
      exists w', resps. cbn. rewrite Hs. repeat split; assumption.
    + destruct (IH Ht (mk_world s (wall_clock w) (log w) (db w) (calls w)
                         (sent w))) as (w' & resps & Hs & ? & ? & ? & ? & ?).
      exists w', resps. cbn. rewrite Hs. repeat split; assumption.
    + unfold health_traffic in Ht. cbn [requests forallb] in Ht.
      apply andb_prop in Ht. destruct Ht as [Hr Ht].
      apply andb_prop in Hr. destruct Hr as [Hm Hp].
      apply String.eqb_eq in Hm, Hp. destruct r as [m p h]. cbn in Hm, Hp.
      subst m p. change (mk_request "GET" "/health" h) with (GET "/health" h).
      rewrite Hcall.
      destruct (stack_get_through
                  (mk_cors (get_cors_origins_list (settings w0)) true
                     ["*"] ["*"])
                  _ "/health" h w w _ (router_call_health rest h w))
        as [hs ->].
      cbn [status_code resp_headers resp_body].
      match goal with
      | |- context [send ?r w] => set (resp := r)
      end.
      destruct (IH Ht (mk_world (settings w) (wall_clock w) (log w) (db w)
                         (calls w) (sent w ++ [resp])))
        as (w' & resps & Hs & Hsent & Hst & ? & ? & ?).
      exists w', (resp :: resps). unfold send. cbn. rewrite Hs.
      repeat split; try assumption.
      * rewrite Hsent. cbn. now rewrite <- app_assoc.
      * cbn. now rewrite Hst.
Qed.

Lemma valid_clock_naive (c : clock) :
  valid_clock c = true ->
  is_iso8601 (isoformat (naive_utc c)) = true
  /\ parse_iso8601 (isoformat (naive_utc c)) = Some (naive_utc c)
  /\ has_tz_designator (isoformat (naive_utc c)) = false.
Proof.
  intros H. unfold valid_clock in H. unfold naive_utc, is_iso8601.
  rewrite (DatetimeFacts.parse_isoformat_naive _ _ _ _ _ _ _ H).
  repeat split. now apply DatetimeFacts.no_designator_naive.
Qed.

(** ** The whole run, phase by phase *)

Lemma run_server_phases (ins : list input) (w : World) :
  run_server ins w
  = match main_module w with
    | (Raise e, w1) => (Raise e, w1)
    | (Ok app, w1) =>
        match lifespan_startup w1 with
        | (Raise e, w2) => (Raise e, w2)
        | (Ok _, w2) =>
            match serve app ins w2 with
            | (Raise e, w3) => (Raise e, w3)
            | (Ok _, w3) => lifespan_shutdown w3
            end
        end
    end.
Proof.
  unfold run_server, bind at 1.
  destruct (main_module w) as [[app|e] w1] eqn:Hmain; [|reflexivity].
  apply main_module_ok in Hmain.
  destruct Hmain as (ma & mt & a & t & _ & _ & _ & _ & _ & -> & _).
  unfold async_with, bind. cbn [lifespan fst snd].
  destruct (lifespan_startup w1) as [[u|e] w2]; [|reflexivity].
  destruct (serve app ins w2) as [[[]|e] w3]; [|reflexivity].
  destruct (lifespan_shutdown w3) as [[[]|e] w4]; reflexivity.
Qed.

Lemma lifespan_shutdown_trace (w : World) :
  calls (snd (lifespan_shutdown w)) = (calls w ++ [CallCloseDb])%list
  /\ sent (snd (lifespan_shutdown w)) = sent w.
Proof.
  rewrite lifespan_shutdown_run.
  destruct (close_db (db w)) as [[[]|e] d]; [split; reflexivity|].
  destruct (derives_Exception e); split; reflexivity.
Qed.

Lemma lifespan_startup_trace (w : World) :
  calls (snd (lifespan_startup w)) = (calls w ++ [CallCreateDb])%list
  /\ sent (snd (lifespan_startup w)) = sent w.
Proof.
  rewrite lifespan_startup_run.
  destruct (create_db_and_tables (db w)) as [[[]|e] d]; [split; reflexivity|].
  destruct (derives_Exception e); split; reflexivity.
Qed.

Lemma count_call_app (c : call) (l1 l2 : list call) :
  count_call c (l1 ++ l2) = (count_call c l1 + count_call c l2)%nat.
Proof. unfold count_call. now rewrite filter_app, length_app. Qed.

(** Whether importing and registering the routers raises depends on
    neither the application nor the state. *)
Lemma register_routers_raise (app0 : FastAPI) (w0 : World) (e : exn) :
  fst (register_routers app0 w0) = Raise e ->
  forall app w, register_routers app w = (Raise e, w).
Proof.
  unfold register_routers, import_from_app_routes, getattr_router, bind,
    logger_info, emit, raise, ret.
  destruct import_app_routes as [[ma mt]|e']; cbn.
  - destruct (router ma) as [a|]; cbn.
    + destruct (router mt) as [t|]; cbn.
      * discriminate.
      * intros H app w. now inversion H.
    + intros H app w. now inversion H.
  - intros H app w. now inversion H.
Qed.

Lemma map_VStr_inj (l1 l2 : list string) :
  map VStr l1 = map VStr l2 -> l1 = l2.
Proof.
  revert l2. induction l1 as [|x l1 IH]; intros [|y l2] H; cbn in H;
    try discriminate; [reflexivity|].
  inversion H. f_equal. now apply IH.
Qed.

Lemma origin_allowed_in (o : CORSOptions) (origin : string) :
  origin_allowed o origin = true <-> In origin (allow_origins o).
Proof.
  unfold origin_allowed. rewrite existsb_exists. split.
  - intros (x & Hx & E). apply String.eqb_eq in E. now subst x.
  - intros H. exists origin. split; [exact H | apply String.eqb_refl].
Qed.

Lemma main_module_frame (w w' : World) (r : result FastAPI) :
  main_module w = (r, w') ->
  settings w' = settings w /\ wall_clock w' = wall_clock w /\
  db w' = db w /\ calls w' = calls w /\ sent w' = sent w.
Proof.
  unfold main_module, include_routers, register_routers,
    import_from_app_routes, getattr_router, try_except_Exception, bind,
    read_settings, logger_info, logger_error, emit, raise, ret. cbn.
  destruct import_app_routes as [[ma mt]|e]; cbn.
  - destruct (router ma) as [a|]; cbn.
    + destruct (router mt) as [t|]; cbn.
      * intros H. inversion H; subst. cbn. repeat split.
      * intros H. inversion H; subst. cbn. repeat split.
    + intros H. inversion H; subst. cbn. repeat split.
  - destruct (derives_Exception e); intros H; inversion H; subst; cbn;
      repeat split.
Qed.

End Facts.
End ProgramFacts.

(* ===================================================================== *)
(** * The specification's claims *)
(* ===================================================================== *)

Module Properties.
Import Datetime Py Http Process Web Main ProgramFacts.
Local Open Scope string_scope.
Local Open Scope prog_scope.

Section Liveness.
Context {DB : Database} {RT : Routes}.

(** C1. Whatever the state of the process, and so also after a failed
    database initialisation, the loaded application answers [GET /health]
    with status 200 and a JSON object holding just [status], equal to
    ["healthy"], and [timestamp], a syntactically valid ISO-8601 text; the
    answer is computed from the clock alone and leaves the whole state,
    the database and the record of collaborator calls included, as it
    was. *)
Theorem health_always_200 (w0 : World) (app : FastAPI) (w : World)
    (h : headers) :
  fst (main_module w0) = Ok app ->
  valid_clock (wall_clock w) = true ->
  exists resp,
    app_call app (GET "/health" h) w = (Ok resp, w)
    /\ status_code resp = 200
    /\ resp_body resp
       = JSONBody [("status", VStr "healthy");
                   ("timestamp",
                    VStr (isoformat (naive_utc (wall_clock w))))]
    /\ dict_get "status" (body_dict resp) = Some (VStr "healthy")
    /\ is_iso8601 (isoformat (naive_utc (wall_clock w))) = true.
Proof.
  intros Happ Hclock.
  destruct (main_module w0) as [r w0'] eqn:Hmain. cbn in Happ. subst r.
  destruct (app_call_loaded _ _ _ Hmain) as [rest ->].
  destruct (stack_get_through
              (mk_cors (get_cors_origins_list (settings w0)) true ["*"] ["*"])
              _ "/health" h w w _ (router_call_health rest h w)) as [hs ->].
  eexists. split; [reflexivity|]. cbn.
  repeat split. now apply valid_clock_naive.
Qed.

(** C2. Whatever the configuration, the loaded application answers
    [GET /] with status 200 and a JSON object whose [app_name], [version]
    and [cors_origins] are the configured name, version and origin list
    (same elements, same order), whose [status] is ["healthy"] and whose
    [timestamp] is the ISO text of the current UTC clock reading. *)
Theorem root_reports_configuration (w0 : World) (app : FastAPI) (w : World)
    (h : headers) :
  fst (main_module w0) = Ok app ->
  exists resp w',
    app_call app (GET "/" h) w = (Ok resp, w')
    /\ status_code resp = 200
    /\ dict_get "status" (body_dict resp) = Some (VStr "healthy")
    /\ dict_get "app_name" (body_dict resp)
       = Some (VStr (APP_NAME (settings w)))
    /\ dict_get "version" (body_dict resp)
       = Some (VStr (APP_VERSION (settings w)))
    /\ dict_get "timestamp" (body_dict resp)
       = Some (VStr (isoformat (naive_utc (wall_clock w))))
    /\ dict_get "cors_origins" (body_dict resp)
       = Some (VList (map VStr (get_cors_origins_list (settings w)))).
Proof.
  intros Happ.
  destruct (main_module w0) as [r w0'] eqn:Hmain. cbn in Happ. subst r.
  destruct (app_call_loaded _ _ _ Hmain) as [rest ->].
  destruct (stack_get_through
              (mk_cors (get_cors_origins_list (settings w0)) true ["*"] ["*"])
              _ "/" h w _ _ (router_call_root rest h w)) as [hs ->].
  do 2 eexists. split; [reflexivity|]. cbn. repeat split.
Qed.

(** C8, amended.  Both handlers compute their answer from the
    configuration and the clock only ([GET /health] from the clock alone)
    and change neither the configuration, the clock, the database state,
    the record of collaborator calls nor the responses sent.
    [GET /health] leaves the whole state as it was; [GET /] emits one INFO
    log record, its only effect beside the answer. *)
Theorem handlers_read_only :
  (exists f, forall w,
      root w
      = (Ok (f (settings w) (wall_clock w)),
         logged w [mk_log INFO [Lit "Root endpoint accessed"]]))
  /\ (exists g, forall w, health_check w = (Ok (g (wall_clock w)), w))
  /\ (forall w,
        settings (snd (root w)) = settings w
        /\ wall_clock (snd (root w)) = wall_clock w
        /\ db (snd (root w)) = db w
        /\ calls (snd (root w)) = calls w
        /\ sent (snd (root w)) = sent w
        /\ log (snd (root w))
           = (log w ++ [mk_log INFO [Lit "Root endpoint accessed"]])%list).
Proof.
  split; [|split].
  - exists (fun s c =>
              [("status", VStr "healthy");
               ("app_name", VStr (APP_NAME s));
               ("version", VStr (APP_VERSION s));
               ("timestamp", VStr (isoformat (naive_utc c)));
               ("cors_origins", VList (map VStr (get_cors_origins_list s)))]).
    intros w. apply root_run.
  - exists (fun c =>
              [("status", VStr "healthy");
               ("timestamp", VStr (isoformat (naive_utc c)))]).
    intros w. apply health_check_run.
  - intros w. rewrite root_run. cbn. repeat split.
Qed.

(** C9. The [timestamp] of both handlers is [isoformat()] of the naive
    UTC clock reading: it ends in no time-zone designator, neither [Z] nor
    a numeric offset, and reading it back gives a value without UTC
    offset, so the text alone does not say that the time is UTC. *)
Theorem timestamps_carry_no_designator (w : World) :
  valid_clock (wall_clock w) = true ->
  exists d_root d_health ts,
    fst (root w) = Ok d_root
    /\ fst (health_check w) = Ok d_health
    /\ dict_get "timestamp" d_root = Some (VStr ts)
    /\ dict_get "timestamp" d_health = Some (VStr ts)
    /\ ts = isoformat (naive_utc (wall_clock w))
    /\ has_tz_designator ts = false
    /\ option_map utcoffset (parse_iso8601 ts) = Some None.
Proof.
  intros H. destruct (valid_clock_naive _ H) as (_ & Hparse & Htz).
  do 3 eexists. rewrite root_run, health_check_run. cbn [fst].
  repeat split; try reflexivity; [exact Htz|].
  rewrite Hparse. reflexivity.
Qed.

End Liveness.

Section Lifecycle.
Context {DB : Database} {RT : Routes}.

(** C3, amended.  When the database initialisation raises an exception
    whose class derives from [Exception], the startup half of the lifespan
    catches it: it logs an error and a warning, re-raises nothing and
    returns normally.  The process goes on to serve, and every
    [GET /health] it receives is answered with status 200. *)
Theorem database_failure_degrades (w w1 : World) (app : FastAPI) (e : exn)
    (d' : DbState) (ins : list input) :
  main_module w = (Ok app, w1) ->
  create_db_and_tables (db w) = (Raise e, d') ->
  derives_Exception e = true ->
  health_traffic ins = true ->
  lifespan_startup w1
  = (Ok tt,
     with_db w1 d' CallCreateDb
       [mk_log INFO [Lit "Starting up: Creating database tables..."];
        mk_log ERROR [Lit "Error during database initialization: "; FExc e];
        mk_log WARNING [Lit "Continuing without database initialization..."]])
  /\ exists r wf resps,
       run_server ins w = (r, wf)
       /\ sent wf = (sent w ++ resps)%list
       /\ map status_code resps = map (fun _ => 200%N) (requests ins).
Proof.
  intros Hmain Hdb He Hins.
  destruct (main_module_frame _ _ _ Hmain) as (_ & _ & Hd & _ & Hs).
  assert (Hstart :
    lifespan_startup w1
    = (Ok tt,
       with_db w1 d' CallCreateDb
         [mk_log INFO [Lit "Starting up: Creating database tables..."];
          mk_log ERROR
            [Lit "Error during database initialization: "; FExc e];
          mk_log WARNING
            [Lit "Continuing without database initialization..."]])).
  { rewrite lifespan_startup_run, Hd, Hdb, He. reflexivity. }
  split; [exact Hstart|].
  rewrite run_server_phases, Hmain, Hstart.
  destruct (serve_health _ _ _ ins Hmain Hins
              (with_db w1 d' CallCreateDb
                 [mk_log INFO [Lit "Starting up: Creating database tables..."];
                  mk_log ERROR
                    [Lit "Error during database initialization: "; FExc e];
                  mk_log WARNING
                    [Lit "Continuing without database initialization..."]]))
    as (w3 & resps & -> & Hsent & Hst & _).
  destruct (lifespan_shutdown w3) as [r wf] eqn:Hdown.
  exists r, wf, resps. split; [reflexivity|]. split; [|exact Hst].
  pose proof (lifespan_shutdown_trace w3) as [_ Hs3].
  rewrite Hdown in Hs3. cbn in Hs3. rewrite Hs3, Hsent. cbn. now rewrite Hs.
Qed.

(** C5, amended.  Each run of the shutdown half of the lifespan invokes
    the database teardown exactly once; over a whole process run the
    teardown is invoked at most once, and exactly once when the run ends
    normally, whether or not the teardown raises.  When the teardown
    raises an exception whose class derives from [Exception], the hook
    catches it, logs an error and returns normally: nothing propagates to
    its caller. *)
Theorem teardown_once_and_contained (w : World) :
  (forall e d',
      close_db (db w) = (Raise e, d') ->
      derives_Exception e = true ->
      lifespan_shutdown w
      = (Ok tt,
         with_db w d' CallCloseDb
           [mk_log INFO
              [Lit "Shutting down: Closing database connections..."];
            mk_log ERROR [Lit "Error during database shutdown: "; FExc e]]))
  /\ (forall w0,
        count_call CallCloseDb (calls (snd (lifespan_shutdown w0)))
        = S (count_call CallCloseDb (calls w0)))
  /\ (forall ins w0,
        (count_call CallCloseDb (calls (snd (run_server ins w0)))
         <= S (count_call CallCloseDb (calls w0)))%nat
        /\ (fst (run_server ins w0) = Ok tt ->
            count_call CallCloseDb (calls (snd (run_server ins w0)))
            = S (count_call CallCloseDb (calls w0)))).
Proof.
  split; [|split].
  - intros e d' Hdb He. rewrite lifespan_shutdown_run, Hdb, He. reflexivity.
  - intros w0. destruct (lifespan_shutdown_trace w0) as [-> _].
    rewrite count_call_app. cbn. lia.
  - intros ins w0. rewrite run_server_phases.
    destruct (main_module w0) as [[app|e0] w1] eqn:Hmain.
    + destruct (main_module_frame _ _ _ Hmain) as (_ & _ & _ & Hc1 & _).
      pose proof (lifespan_startup_trace w1) as [Hc2 _].
      destruct (lifespan_startup w1) as [[u|e1] w2]; cbn in Hc2.
      * pose proof (serve_calls _ _ _ ins Hmain w2) as Hc3.
        destruct (serve app ins w2) as [[u'|e2] w3]; cbn in Hc3.
        -- pose proof (lifespan_shutdown_trace w3) as [Hc4 _].
           rewrite Hc4, Hc3, Hc2, Hc1, !count_call_app. cbn. lia.
        -- cbn. rewrite Hc3, Hc2, Hc1, !count_call_app. cbn.
           split; [lia | discriminate].
      * cbn. rewrite Hc2, Hc1, !count_call_app. cbn.
        split; [lia | discriminate].
    + destruct (main_module_frame _ _ _ Hmain) as (_ & _ & _ & Hc1 & _).
      cbn. rewrite Hc1. split; [lia | discriminate].
Qed.

End Lifecycle.

Section Routers.
Context {DB : Database} {RT : Routes}.

(** C4, amended.  When importing the route package or registering either
    router raises an exception, the import of the module raises that same
    exception, so the process fails before the lifespan starts and sends
    no response: it never serves the local endpoints with the delegated
    surface missing or half mounted.  When the class of the exception
    derives from [Exception], an error record is logged before it is
    re-raised. *)
Theorem router_failure_aborts_startup (app0 : FastAPI) (w0 w : World)
    (e : exn) (ins : list input) :
  fst (register_routers app0 w0) = Raise e ->
  exists w',
    main_module w = (Raise e, w')
    /\ run_server ins w = (Raise e, w')
    /\ sent w' = sent w
    /\ calls w' = calls w
    /\ (derives_Exception e = true ->
        log w'
        = (log w
           ++ [mk_log INFO [Lit "Configuring CORS with origins: ";
                            FList (get_cors_origins_list (settings w))];
               mk_log ERROR [Lit "Error loading routes: "; FExc e]])%list).
Proof.
  intros H. pose proof (register_routers_raise _ _ _ H) as Hr.
  assert (Hmain : exists w',
    main_module w = (Raise e, w')
    /\ (derives_Exception e = true ->
        log w'
        = (log w
           ++ [mk_log INFO [Lit "Configuring CORS with origins: ";
                            FList (get_cors_origins_list (settings w))];
               mk_log ERROR [Lit "Error loading routes: "; FExc e]])%list)).
  { unfold main_module, include_routers, try_except_Exception, bind,
      read_settings, logger_info, logger_error, emit, raise. cbn.
    rewrite Hr. destruct (derives_Exception e); eexists; split;
      try reflexivity; try discriminate.
    intros _. cbn. now rewrite <- app_assoc. }
  destruct Hmain as (w' & Hmain & Hlog). exists w'.
  destruct (main_module_frame _ _ _ Hmain) as (_ & _ & _ & Hc & Hs).
  rewrite run_server_phases, Hmain. repeat split; assumption.
Qed.

(** C7. A successfully imported module has mounted the routes of the
    [auth] router under [/api/auth], tagged [Authentication], and those of
    the [tasks] router under [/api/tasks], tagged [Tasks], after the two
    local endpoints, and nothing else: every route of the application is
    [/], [/health], or a delegated route under its router's prefix. *)
Theorem routers_under_fixed_prefixes (w w' : World) (app : FastAPI) :
  main_module w = (Ok app, w') ->
  exists m_auth m_tasks r_auth r_tasks,
    import_app_routes = Ok (m_auth, m_tasks)
    /\ router m_auth = Some r_auth
    /\ router m_tasks = Some r_tasks
    /\ routes app
       = ([mk_route "/" ["GET"] [] (json_endpoint root);
           mk_route "/health" ["GET"] [] (json_endpoint health_check)]
          ++ map (mount "/api/auth" ["Authentication"])
                 (router_routes r_auth)
          ++ map (mount "/api/tasks" ["Tasks"]) (router_routes r_tasks))%list
    /\ Forall
         (fun r =>
            route_path r = "/" \/ route_path r = "/health"
            \/ (exists x, In x (router_routes r_auth)
                          /\ route_path r = "/api/auth" ++ ext_path x
                          /\ route_tags r = ["Authentication"])
            \/ (exists x, In x (router_routes r_tasks)
                          /\ route_path r = "/api/tasks" ++ ext_path x
                          /\ route_tags r = ["Tasks"]))
         (routes app).
Proof.
  intros H. apply main_module_ok in H.
  destruct H as (ma & mt & a & t & Hi & Ha & Ht & _ & _ & _ & _ & Hr & _).
  exists ma, mt, a, t. repeat split; try assumption.
  rewrite Hr. repeat apply Forall_cons.
  - now left.
  - right. now left.
  - apply Forall_app. split; apply Forall_forall; intros r Hin;
      apply in_map_iff in Hin; destruct Hin as (x & <- & Hx).
    + right. right. left. exists x. repeat split. exact Hx.
    + right. right. right. exists x. repeat split. exact Hx.
Qed.

End Routers.

Section Cors.
Context {DB : Database} {RT : Routes}.

(** C10. The origin list of the CORS middleware is the configured list at
    the time the module is imported and is part of the application object
    from then on, while [GET /] reports the configured list at the time of
    the request: when the two lists differ, the reported list is not the
    enforced one. *)
Theorem cors_origins_fixed_at_construction (w0 w0' : World) (app : FastAPI)
    (w : World) (h : headers) :
  main_module w0 = (Ok app, w0') ->
  get_cors_origins_list (settings w) <> get_cors_origins_list (settings w0) ->
  map allow_origins (user_middleware app)
  = [get_cors_origins_list (settings w0)]
  /\ exists resp w',
       app_call app (GET "/" h) w = (Ok resp, w')
       /\ dict_get "cors_origins" (body_dict resp)
          = Some (VList (map VStr (get_cors_origins_list (settings w))))
       /\ forall enforced,
            In enforced (map allow_origins (user_middleware app)) ->
            dict_get "cors_origins" (body_dict resp)
            <> Some (VList (map VStr enforced)).
Proof.
  intros Hmain Hneq.
  destruct (app_call_loaded _ _ _ Hmain) as [rest Hcall].
  pose proof (main_module_ok _ _ _ Hmain)
    as (ma & mt & a & t & _ & _ & _ & _ & _ & _ & Hm & _ & _).
  rewrite Hm. cbn [map allow_origins]. split; [reflexivity|].
  rewrite Hcall.
  destruct (stack_get_through
              (mk_cors (get_cors_origins_list (settings w0)) true ["*"] ["*"])
              _ "/" h w _ _ (router_call_root rest h w)) as [hs ->].
  do 2 eexists. split; [reflexivity|]. cbn. split; [reflexivity|].
  intros enforced [<-|[]] E. inversion E as [E'].
  apply map_VStr_inj in E'. now apply Hneq.
Qed.

(** C6, amended.  The loaded application carries one CORS policy, wrapped
    around the whole router: credentials allowed, every method and every
    request header permitted, origins as configured when the module was
    imported.  For a request whose Origin header is in that list, a
    preflight (OPTIONS) is answered at once with status 200 and the
    [Access-Control-Allow-*] headers, and any other request gets the
    router's answer with these headers added.  For a request from an
    origin outside the list the policy adds nothing: the answer is the one
    the application gives without the middleware, and it carries an
    [Access-Control-Allow-Origin] header only when the delegated handler
    that answered the request returned that header itself; the answers of
    the local endpoints and the router's own answers carry none. *)
Theorem cors_policy_global (w0 w0' : World) (app : FastAPI) (req : Request)
    (origin : string) (w : World) :
  main_module w0 = (Ok app, w0') ->
  header_get "origin" (req_headers req) = Some origin ->
  let o := mk_cors (get_cors_origins_list (settings w0)) true ["*"] ["*"] in
  user_middleware app = [o]
  /\ app_call app
     = ServerErrorMiddleware (CORSMiddleware o (router_call (routes app)))
  /\ (forall m, permits (allow_methods o) m = true)
  /\ (forall hd, permits (allow_headers o) hd = true)
  /\ allow_credentials o = true
  /\ (In origin (get_cors_origins_list (settings w0)) ->
      header_get "access-control-allow-origin" (cors_headers o origin)
      = Some origin
      /\ header_get "access-control-allow-credentials"
           (cors_headers o origin) = Some "true"
      /\ header_get "access-control-allow-methods" (cors_headers o origin)
         = Some "*"
      /\ header_get "access-control-allow-headers" (cors_headers o origin)
         = Some "*"
      /\ (req_method req = "OPTIONS" ->
          app_call app req w
          = (Ok (mk_response 200 (cors_headers o origin) (TextBody "OK")),
             w))
      /\ (req_method req <> "OPTIONS" ->
          forall r w',
            router_call (routes app) req w = (Ok r, w') ->
            app_call app req w
            = (Ok (add_headers (cors_headers o origin) r), w')))
  /\ (~ In origin (get_cors_origins_list (settings w0)) ->
      app_call app req w
      = ServerErrorMiddleware (router_call (routes app)) req w
      /\ (forall path,
             req_method req = "GET" -> req_path req = path ->
             path = "/" \/ path = "/health" ->
             exists resp w',
               app_call app req w = (Ok resp, w')
               /\ status_code resp = 200
               /\ header_get "access-control-allow-origin"
                    (resp_headers resp) = None)
      /\ forall resp w',
           app_call app req w = (Ok resp, w') ->
           header_get "access-control-allow-origin" (resp_headers resp)
           = None
           \/ exists prefix tags x d,
                find_route (routes app) req = Some (mount prefix tags x)
                /\ ext_handler x req (db w) = (Ok resp, d)).
Proof.
  intros Hmain Horigin o.
  pose proof (main_module_ok _ _ _ Hmain)
    as (ma & mt & a & t & _ & _ & _ & _ & _ & _ & Hm & Hr & _).
  assert (Hcall : app_call app
                  = ServerErrorMiddleware
                      (CORSMiddleware o (router_call (routes app)))).
  { unfold app_call. now rewrite Hm. }
  split; [exact Hm|]. split; [exact Hcall|].
  split; [reflexivity|]. split; [reflexivity|]. split; [reflexivity|].
  split.
  - intros Hin.
    assert (Hal : origin_allowed o origin = true)
      by now apply origin_allowed_in.
    repeat split.
    + intros Hopt. rewrite Hcall. apply server_error_ok.
      unfold CORSMiddleware. now rewrite Horigin, Hal, Hopt.
    + intros Hopt r w' Hrouter. rewrite Hcall. apply server_error_ok.
      unfold CORSMiddleware.
      rewrite Horigin, Hal. apply String.eqb_neq in Hopt. rewrite Hopt.
      unfold bind. now rewrite Hrouter.
  - intros Hout.
    assert (Hal : origin_allowed o origin = false).
    { destruct (origin_allowed o origin) eqn:E; [|reflexivity].
      apply origin_allowed_in in E. contradiction. }
    assert (Hthrough :
      app_call app req w
      = ServerErrorMiddleware (router_call (routes app)) req w).
    { rewrite Hcall. unfold ServerErrorMiddleware, CORSMiddleware.
      now rewrite Horigin, Hal. }
    split; [exact Hthrough|]. split.
    + intros path Hget Hpath Hlocal. rewrite Hthrough, Hr.
      destruct req as [m p hs]. cbn in Hget, Hpath. subst m p.
      change (mk_request "GET" path hs) with (GET path hs).
      destruct Hlocal as [->| ->]; cbn [List.app].
      * rewrite (server_error_ok _ _ _ _ _ (router_call_root _ hs w)).
        do 2 eexists. repeat split.
      * rewrite (server_error_ok _ _ _ _ _ (router_call_health _ hs w)).
        do 2 eexists. repeat split.
    + intros resp w' Hresp. rewrite Hthrough in Hresp.
      unfold ServerErrorMiddleware, try_except_Exception, router_call
        in Hresp.
      destruct (find_route (routes app) req) as [r|] eqn:Hf.
      * pose proof (find_route_in _ _ _ Hf) as Hin. rewrite Hr in Hin.
        apply in_app_or in Hin. destruct Hin as [Hin|Hin].
        -- left. destruct Hin as [<-|[<-|[]]]; cbn in Hresp;
             inversion Hresp; reflexivity.
        -- assert (Hx : exists prefix tags x, r = mount prefix tags x).
           { apply in_app_or in Hin. destruct Hin as [Hin|Hin];
               apply in_map_iff in Hin; destruct Hin as (x & <- & _);
               do 3 eexists; reflexivity. }
           destruct Hx as (prefix & tags & x & ->).
           cbn [endpoint mount] in Hresp. unfold lift_db in Hresp.
           destruct (ext_handler x req (db w)) as [[r0|e] d] eqn:Hh.
           ++ right. inversion Hresp; subst. now exists prefix, tags, x, d.
           ++ left. destruct (derives_Exception e); inversion Hresp.
              reflexivity.
      * left. destruct (path_known (routes app) req); inversion Hresp;
          reflexivity.
Qed.

End Cors.

(* ===================================================================== *)
(** ** The claims at sample inputs *)
(* ===================================================================== *)

Import Sample.

(** [GET /health] in the state left by a failed database initialisation. *)
Lemma health_always_200_witness :
  let DB := db_init_fails connection_refused in
  let RT : Routes := both_routers in
  let w0 := fresh 0%nat in
  let app := loaded_app w0 in
  let w := snd (lifespan_startup (snd (main_module w0))) in
  fst (main_module w0) = Ok app
  /\ valid_clock (wall_clock w) = true
  /\ exists resp,
       app_call app health_request w = (Ok resp, w)
       /\ status_code resp = 200
       /\ dict_get "timestamp" (body_dict resp)
          = Some (VStr "2024-01-15T12:00:00").
Proof.
  intros DB RT w0 app w.
  assert (Happ : fst (main_module w0) = Ok app) by reflexivity.
  assert (Hclock : valid_clock (wall_clock w) = true) by reflexivity.
  split; [exact Happ|]. split; [exact Hclock|].
  destruct (health_always_200 w0 app w [] Happ Hclock)
    as (resp & Hrun & Hst & Hbody & _).
  exists resp. split; [exact Hrun|]. split; [exact Hst|].
  unfold body_dict. rewrite Hbody. reflexivity.
Defined.

Lemma root_reports_configuration_witness :
  let DB := working_db in
  let RT : Routes := both_routers in
  let w0 := fresh 0%nat in
  let app := loaded_app w0 in
  let w := mk_world other_settings later [] 1%nat [] [] in
  fst (main_module w0) = Ok app
  /\ exists resp w',
       app_call app root_request w = (Ok resp, w')
       /\ dict_get "app_name" (body_dict resp) = Some (VStr "Todo API")
       /\ dict_get "version" (body_dict resp) = Some (VStr "1.0.0")
       /\ dict_get "cors_origins" (body_dict resp)
          = Some (VList [VStr "https://evil.example.com"]).
Proof.
  intros DB RT w0 app w.
  assert (Happ : fst (main_module w0) = Ok app) by reflexivity.
  split; [exact Happ|].
  destruct (root_reports_configuration w0 app w [] Happ)
    as (resp & w' & Hrun & _ & _ & Hname & Hver & _ & Hcors).
  exists resp, w'. repeat split; assumption.
Defined.

Lemma timestamps_carry_no_designator_witness :
  let DB := working_db in
  let w := mk_world todo_settings later [] 0%nat [] [] in
  valid_clock (wall_clock w) = true
  /\ exists d_root d_health,
       fst (root w) = Ok d_root
       /\ fst (health_check w) = Ok d_health
       /\ dict_get "timestamp" d_root
          = Some (VStr "2024-02-29T23:59:59.001234")
       /\ dict_get "timestamp" d_health
          = Some (VStr "2024-02-29T23:59:59.001234")
       /\ has_tz_designator "2024-02-29T23:59:59.001234" = false.
Proof.
  intros DB w.
  assert (Hclock : valid_clock (wall_clock w) = true) by reflexivity.
  split; [exact Hclock|].
  destruct (timestamps_carry_no_designator w Hclock)
    as (d1 & d2 & ts & H1 & H2 & H3 & H4 & Hts & Htz & _).
  exists d1, d2. change (isoformat (naive_utc (wall_clock w)))
    with "2024-02-29T23:59:59.001234" in Hts. subst ts.
  repeat split; assumption.
Defined.

(** Health checks served after [create_db_and_tables] raised an
    [OperationalError]. *)
Lemma database_failure_degrades_witness :
  let DB := db_init_fails connection_refused in
  let RT : Routes := both_routers in
  let w := fresh 0%nat in
  let ins := [Http health_request; Tick later; Http health_request] in
  create_db_and_tables (db w) = (Raise connection_refused, 0%nat)
  /\ derives_Exception connection_refused = true
  /\ health_traffic ins = true
  /\ fst (lifespan_startup (snd (main_module w)))
     = Ok tt
  /\ exists r wf resps,
       run_server ins w = (r, wf)
       /\ sent wf = resps
       /\ map status_code resps = [200; 200].
Proof.
  intros DB RT w ins.
  assert (Hmain : main_module w = (Ok (loaded_app w), snd (main_module w)))
    by reflexivity.
  assert (Hdb : create_db_and_tables (db w)
                = (Raise connection_refused, 0%nat)) by reflexivity.
  assert (He : derives_Exception connection_refused = true) by reflexivity.
  assert (Hins : health_traffic ins = true) by reflexivity.
  split; [exact Hdb|]. split; [exact He|]. split; [exact Hins|].
  destruct (database_failure_degrades w (snd (main_module w)) (loaded_app w)
              connection_refused 0%nat ins Hmain Hdb He Hins)
    as (Hstart & r & wf & resps & Hrun & Hsent & Hst).
  split; [now rewrite Hstart|].
  exists r, wf, resps. repeat split; assumption.
Defined.

(** A cancelled startup: [CancelledError] does not derive from
    [Exception], so the hook lets it through and nothing is served. *)
Lemma cancelled_startup_propagates :
  let DB := db_init_fails cancelled in
  let RT : Routes := both_routers in
  let w := fresh 0%nat in
  create_db_and_tables (db w) = (Raise cancelled, 0%nat)
  /\ fst (lifespan_startup w) = Raise cancelled
  /\ fst (run_server [Http health_request] w)
     = Raise cancelled
  /\ sent (snd (run_server [Http health_request] w))
     = [].
Proof. repeat split. Qed.

Lemma teardown_once_and_contained_witness :
  let DB := db_close_fails connection_refused in
  let RT : Routes := both_routers in
  let w := fresh 1%nat in
  close_db (db w) = (Raise connection_refused, 1%nat)
  /\ derives_Exception connection_refused = true
  /\ fst (lifespan_shutdown w) = Ok tt
  /\ count_call CallCloseDb (calls (snd (lifespan_shutdown w))) = 1%nat
  /\ fst (run_server [Http health_request] w) = Ok tt
  /\ count_call CallCloseDb
       (calls (snd (run_server [Http health_request] w)))
     = 1%nat.
Proof.
  intros DB RT w.
  assert (Hdb : close_db (db w) = (Raise connection_refused, 1%nat))
    by reflexivity.
  assert (He : derives_Exception connection_refused = true) by reflexivity.
  split; [exact Hdb|]. split; [exact He|].
  destruct (teardown_once_and_contained w) as (Hcatch & Hhook & Hrun).
  split; [now rewrite (Hcatch connection_refused 1%nat Hdb He)|].
  split; [exact (Hhook w)|].
  assert (Hok : fst (run_server [Http health_request] w) = Ok tt)
    by reflexivity.
  split; [exact Hok|].
  exact (proj2 (Hrun [Http health_request] w) Hok).
Defined.

(** An interrupted teardown: [KeyboardInterrupt] does not derive from
    [Exception], so the hook and the run end with it.  And a process whose
    module import fails never reaches the teardown. *)
Lemma interrupted_teardown_propagates :
  let DB := db_close_fails keyboard_interrupt in
  let w := fresh 1%nat in
  close_db (db w) = (Raise keyboard_interrupt, 1%nat)
  /\ fst (lifespan_shutdown w) = Raise keyboard_interrupt
  /\ fst (run_server (RT := both_routers) [] w) = Raise keyboard_interrupt
  /\ count_call CallCloseDb
       (calls (snd (run_server (RT := import_raises import_error) [] w)))
     = 0%nat.
Proof. repeat split. Qed.

(** The [tasks] module without a [router]: [auth] is mounted when the
    [AttributeError] is raised, and the module import fails with it. *)
Lemma router_failure_aborts_startup_witness :
  let DB := working_db in
  let RT : Routes := tasks_without_router in
  let w := fresh 0%nat in
  let e := mk_exn "AttributeError" true
             "module 'app.routes.tasks' has no attribute 'router'" in
  fst (register_routers
         (FastAPI_new "" "" "" lifespan) w) = Raise e
  /\ exists w',
       run_server [Http health_request] w
       = (Raise e, w')
       /\ sent w' = []
       /\ existsb is_error_record (log w') = true.
Proof.
  intros DB RT w e.
  assert (Hreg : fst (register_routers (FastAPI_new "" "" "" lifespan) w)
                 = Raise e) by reflexivity.
  split; [exact Hreg|].
  destruct (router_failure_aborts_startup
              (FastAPI_new "" "" "" lifespan) w w e [Http health_request]
              Hreg)
    as (w' & _ & Hrun & Hsent & _ & Hlog).
  exists w'. split; [exact Hrun|]. split; [exact Hsent|].
  rewrite (Hlog eq_refl). reflexivity.
Defined.

(** An import ended by [SystemExit]: the handler of [except Exception]
    does not run, so no error record is logged. *)
Lemma system_exit_not_logged :
  let DB := working_db in
  let RT : Routes := import_raises system_exit in
  let w := fresh 0%nat in
  fst (register_routers
         (FastAPI_new "" "" "" lifespan) w) = Raise system_exit
  /\ fst (main_module w)
     = Raise system_exit
  /\ existsb is_error_record
       (log (snd (main_module w)))
     = false.
Proof. repeat split. Qed.

Lemma routers_under_fixed_prefixes_witness :
  let DB := working_db in
  let RT : Routes := both_routers in
  let w := fresh 0%nat in
  main_module w
  = (Ok (loaded_app w),
     snd (main_module w))
  /\ map route_path (routes (loaded_app w))
     = ["/"; "/health"; "/api/auth/login"; "/api/tasks/"; "/api/tasks/"].
Proof.
  intros DB RT w.
  assert (Hmain : main_module w = (Ok (loaded_app w), snd (main_module w)))
    by reflexivity.
  split; [exact Hmain|].
  destruct (routers_under_fixed_prefixes w (snd (main_module w))
              (loaded_app w) Hmain)
    as (ma & mt & a & t & Hi & Ha & Ht & Hr & _).
  inversion Hi; subst ma mt. inversion Ha; subst a. inversion Ht; subst t.
  rewrite Hr. reflexivity.
Defined.

(** [GET /] changes the state: it emits a log record. *)
Lemma root_emits_log_record :
  let DB := working_db in
  let w := fresh 0%nat in
  log w = []
  /\ log (snd (root w)) = [mk_log INFO [Lit "Root endpoint accessed"]]
  /\ snd (root w) <> w.
Proof.
  intros DB w. split; [reflexivity|]. split; [reflexivity|].
  intros E. apply (f_equal log) in E. discriminate E.
Qed.

(** The configuration changed after the import: [GET /] reports the new
    origin, the middleware still holds the old ones. *)
Lemma cors_origins_fixed_at_construction_witness :
  let DB := working_db in
  let RT : Routes := both_routers in
  let w0 := fresh 0%nat in
  let app := loaded_app w0 in
  let w := mk_world other_settings later [] 1%nat [] [] in
  get_cors_origins_list (settings w) <> get_cors_origins_list (settings w0)
  /\ map allow_origins (user_middleware app)
     = [["http://localhost:3000"; "https://todo.example.com"]]
  /\ exists resp w',
       app_call app root_request w = (Ok resp, w')
       /\ dict_get "cors_origins" (body_dict resp)
          = Some (VList [VStr "https://evil.example.com"]).
Proof.
  intros DB RT w0 app w.
  assert (Hneq : get_cors_origins_list (settings w)
                 <> get_cors_origins_list (settings w0)) by discriminate.
  split; [exact Hneq|].
  assert (Hmain : main_module w0 = (Ok app, snd (main_module w0)))
    by reflexivity.
  destruct (cors_origins_fixed_at_construction w0 (snd (main_module w0))
              app w [] Hmain Hneq)
    as (Hmw & resp & w' & Hrun & Hcors & _).
  split; [exact Hmw|]. exists resp, w'. split; assumption.
Defined.

(** A preflight from a configured origin. *)
Lemma cors_policy_global_witness :
  let DB := working_db in
  let RT : Routes := both_routers in
  let w0 := fresh 0%nat in
  let app := loaded_app w0 in
  let req := preflight "https://todo.example.com" in
  header_get "origin" (req_headers req) = Some "https://todo.example.com"
  /\ app_call app req w0
     = (Ok (mk_response 200
              [("access-control-allow-origin", "https://todo.example.com");
               ("access-control-allow-credentials", "true");
               ("access-control-allow-methods", "*");
               ("access-control-allow-headers", "*")]
              (TextBody "OK")), w0).
Proof.
  intros DB RT w0 app req.
  assert (Hmain : main_module w0 = (Ok app, snd (main_module w0)))
    by reflexivity.
  assert (Horigin : header_get "origin" (req_headers req)
                    = Some "https://todo.example.com") by reflexivity.
  split; [exact Horigin|].
  destruct (cors_policy_global w0 (snd (main_module w0)) app req
              "https://todo.example.com" w0 Hmain Horigin)
    as (_ & _ & _ & _ & _ & Hin & _).
  assert (Hconf : In "https://todo.example.com"
                     (get_cors_origins_list (settings w0)))
    by (right; left; reflexivity).
  destruct (Hin Hconf) as (_ & _ & _ & _ & Hopt & _).
  apply Hopt. reflexivity.
Defined.

(** A delegated handler that echoes the Origin: a request from an origin
    outside the configured list is answered with a matching
    [Access-Control-Allow-Origin] header, which the middleware neither
    adds nor removes. *)
Lemma delegated_handler_sets_origin_header :
  let DB := working_db in
  let RT : Routes := echo_routers in
  let w := fresh 0%nat in
  let req := GET "/api/auth/echo" [("origin", "https://evil.example.com")] in
  existsb (String.eqb "https://evil.example.com")
    (get_cors_origins_list (settings w)) = false
  /\ match fst (app_call (loaded_app w) req w) with
     | Ok resp =>
         header_get "access-control-allow-origin" (resp_headers resp)
     | Raise _ => None
     end = Some "https://evil.example.com".
Proof. intros DB RT w req. split; reflexivity. Qed.

(** The configuration is changed while the process serves: [GET /] then
    reports the new origin, and a preflight from that origin still gets no
    [Access-Control-Allow-Origin] header. *)
Example reported_origin_not_enforced :
  let DB := working_db in
  let RT : Routes := both_routers in
  let ins := [Reconfigure other_settings; Http root_request;
              Http (preflight "https://evil.example.com")] in
  let answers := sent (snd (run_server ins (fresh 0%nat))) in
  map status_code answers = [200; 405]
  /\ map (fun r => dict_get "cors_origins" (body_dict r)) answers
     = [Some (VList [VStr "https://evil.example.com"]); None]
  /\ map (fun r => header_get "access-control-allow-origin"
                     (resp_headers r)) answers
     = [None; None].
Proof. intros DB RT ins answers. repeat split; reflexivity. Qed.

End Properties.

(* ===================================================================== *)
(** * Further properties of the module *)
(* ===================================================================== *)

Module Extras.
Import Datetime Py Http Process Web Main Observe ProgramFacts.
Local Open Scope string_scope.
Local Open Scope prog_scope.

Section Lifecycle.
Context {DB : Database} {RT : Routes}.







End Lifecycle.
Section Answers.
Context {DB : Database} {RT : Routes}.







(** ** Dispatch to the local endpoints *)




End Answers.
Section Serving.
Context {DB : Database} {RT : Routes}.











End Serving.
(* ===================================================================== *)
(** ** The further properties at sample inputs *)
(* ===================================================================== *)

Import Sample.









End Extras.
